(** * Complaints dashboard: a shallow embedding of [Complaints Analysis/Oos.py]

    The script loads one sheet of complaint tickets, derives a reporter name
    and calendar fields for every row, filters the rows by a date range and a
    set of categories, aggregates them per category and exports two sheets.

    Tables are lists of records (one record per data-frame row, in index
    order).  Python text is a list of Unicode code points.  The percentages
    are IEEE-754 binary64 numbers, as NumPy computes them. *)

From Stdlib Require Import List NArith ZArith Bool String Ascii Lia.
From Stdlib Require Import Permutation Sorted Floats Uint63.
Import ListNotations.

(* ================================================================== *)
(** * Python text *)

(** A character of a Python [str] is a code point. *)
Definition char : Type := N.
Definition str : Type := list char.

(** The code points of an ASCII literal. *)
Definition lit (s : string) : str := map N_of_ascii (list_ascii_of_string s).

Fixpoint str_eqb (a b : str) : bool :=
  match a, b with
  | [], [] => true
  | x :: a', y :: b' => N.eqb x y && str_eqb a' b'
  | _, _ => false
  end.

(** Order of [str] values: lexicographic on code points. *)
Fixpoint str_leb (a b : str) : bool :=
  match a, b with
  | [], _ => true
  | _ :: _, [] => false
  | x :: a', y :: b' => N.ltb x y || (N.eqb x y && str_leb a' b')
  end.

(** The characters [str.strip()] removes: those for which [str.isspace]
    holds (U+0009..000D, U+001C..0020, U+0085, U+00A0, U+1680,
    U+2000..200A, U+2028, U+2029, U+202F, U+205F, U+3000). *)
Definition isspace (c : char) : bool :=
  ((9 <=? c) && (c <=? 13) || (28 <=? c) && (c <=? 32)
   || (c =? 133) || (c =? 160) || (c =? 5760)
   || (8192 <=? c) && (c <=? 8202)
   || (c =? 8232) || (c =? 8233) || (c =? 8239) || (c =? 8287)
   || (c =? 12288))%N.

Fixpoint dropwhile (f : char -> bool) (s : str) : str :=
  match s with
  | [] => []
  | c :: s' => if f c then dropwhile f s' else s
  end.

Definition lstrip (s : str) : str := dropwhile isspace s.
Definition rstrip (s : str) : str := rev (dropwhile isspace (rev s)).
Definition strip (s : str) : str := rstrip (lstrip s).

(** [str.join]. *)
Fixpoint join (sep : str) (parts : list str) : str :=
  match parts with
  | [] => []
  | [p] => p
  | p :: rest => p ++ sep ++ join sep rest
  end.

(** [str(n)] for a non-negative integer. *)
Definition digit_char (d : nat) : char := (48 + N.of_nat d)%N.

Fixpoint str_of_nat_aux (fuel n : nat) (acc : str) : str :=
  match fuel with
  | O => acc
  | S fuel' =>
      let acc' := digit_char (n mod 10) :: acc in
      if n <? 10 then acc' else str_of_nat_aux fuel' (n / 10) acc'
  end.

Definition str_of_nat (n : nat) : str := str_of_nat_aux (S n) n [].

(* ================================================================== *)
(** * The regular expression [reported by (.+)$]

    The pattern is compiled without flags, so [.] is any character but the
    line feed and [$] holds at the end of the text or just before a line
    feed that ends the text. *)

Definition LF : char := 10%N.
Definition dot (c : char) : bool := negb (N.eqb c LF).

Definition reported_by : str := lit "reported by ".

(** [strip_prefix p s] is the text after [p] when [s] starts with [p]. *)
Fixpoint strip_prefix (p s : str) : option str :=
  match p, s with
  | [], _ => Some s
  | _ :: _, [] => None
  | x :: p', y :: s' => if N.eqb x y then strip_prefix p' s' else None
  end.

(** The longest prefix of characters satisfying [f], and what follows. *)
Fixpoint span (f : char -> bool) (s : str) : str * str :=
  match s with
  | [] => ([], [])
  | c :: s' =>
      if f c then let (a, b) := span f s' in (c :: a, b) else ([], s)
  end.

(** [(.+)$] at the start of [s].  The greedy [.+] takes the whole run of
    characters up to the first line feed; [$] holds there when nothing
    follows or one final line feed does.  A shorter run is followed by a
    character that is not a line feed, where [$] fails, so backtracking
    finds no other match. *)
Definition group_to_end (s : str) : option str :=
  match span dot s with
  | ([], _) => None
  | (g, []) => Some g
  | (g, [c]) => if N.eqb c LF then Some g else None
  | (_, _ :: _ :: _) => None
  end.

(** A match of the whole pattern starting at the first character of [s];
    the result is group 1. *)
Definition match_at (s : str) : option str :=
  match strip_prefix reported_by s with
  | Some rest => group_to_end rest
  | None => None
  end.

(** [re.search]: the match at the leftmost position that has one. *)
Fixpoint re_search (s : str) : option str :=
  match match_at s with
  | Some g => Some g
  | None =>
      match s with
      | [] => None
      | _ :: s' => re_search s'
      end
  end.

Definition Unknown : str := lit "Unknown".

(** [extract_reporter].  A subject cell is [None] when [pd.isna] holds of it
    and [Some s] otherwise, [s] being the text [str(subject)]. *)
Definition extract_reporter (subject : option str) : str :=
  match subject with
  | None => Unknown
  | Some s =>
      match re_search s with
      | Some g => strip g
      | None => Unknown
      end
  end.

(** ** The extraction as the specification words it

    A search for the literal substring, and the remainder of the text after
    it, trimmed.  [str_find] is [str.find]: the index of the first occurrence. *)

Fixpoint str_find (p s : str) : option nat :=
  match strip_prefix p s with
  | Some _ => Some O
  | None =>
      match s with
      | [] => None
      | _ :: s' => option_map S (str_find p s')
      end
  end.

Definition spec_extract_reporter (subject : option str) : str :=
  match subject with
  | None => Unknown
  | Some s =>
      match str_find reported_by s with
      | Some i => strip (skipn (i + List.length reported_by) s)
      | None => Unknown
      end
  end.

(* ================================================================== *)
(** * Calendar values *)

(** A [datetime.date]; dates compare as their (year, month, day) triples. *)
Record date : Type := mkdate { year : nat; month : nat; day : nat }.

Definition date_leb (a b : date) : bool :=
  (year a <? year b)
  || ((year a =? year b)
      && ((month a <? month b)
          || ((month a =? month b) && (day a <=? day b)))).

(** A parsed [Timestamp] (no time zone). *)
Record Timestamp : Type := mkTimestamp {
  ts_date : date;
  ts_hour : nat;
  ts_minute : nat;
  ts_second : nat;
  ts_nanosecond : nat
}.

(** The weekday of a date in the proleptic Gregorian calendar, as
    [date.weekday()] computes it from the ordinal of the day. *)
Definition is_leap (y : nat) : bool :=
  (y mod 4 =? 0) && (negb (y mod 100 =? 0) || (y mod 400 =? 0)).

Definition days_in_month (y m : nat) : nat :=
  match m with
  | 2 => if is_leap y then 29 else 28
  | 4 | 6 | 9 | 11 => 30
  | _ => 31
  end.

Definition days_before_year (y : nat) : nat :=
  let p := y - 1 in p * 365 + p / 4 - p / 100 + p / 400.

Definition days_before_month (y m : nat) : nat :=
  list_sum (map (days_in_month y) (seq 1 (m - 1))).

Definition toordinal (d : date) : nat :=
  days_before_year (year d) + days_before_month (year d) (month d) + day d.

Definition weekday (d : date) : nat := (toordinal d + 6) mod 7.

Definition day_names : list str :=
  map lit ["Monday"; "Tuesday"; "Wednesday"; "Thursday"; "Friday";
           "Saturday"; "Sunday"]%string.

Definition day_name (t : Timestamp) : str :=
  nth (weekday (ts_date t)) day_names [].

(* ================================================================== *)
(** * The loader *)

(** The table after [load_data]: the renamed columns of the sheet and the
    four derived ones.  A cell that may be missing is an [option]; [None] in
    [Report_Time] is [NaT]. *)
Record Row : Type := mkRow {
  Main_Category : str;
  Product : option str;
  Report_Time : option Timestamp;
  Facility : option str;
  Picker : option str;
  Ticket_Subject : option str;
  Reporter : str;
  Day : option str;
  Hour : option nat;
  Date : option date
}.

Definition Undefined : str := lit "Undefined".

(** [Series.fillna(v)] and [Series.replace(old, new)] on one cell. *)
Definition fillna (v : str) (c : option str) : str :=
  match c with
  | None => v
  | Some s => s
  end.

Definition replace (old new s : str) : str :=
  if str_eqb s old then new else s.

Definition notna {A : Type} (c : option A) : bool :=
  match c with
  | Some _ => true
  | None => false
  end.

Section Loader.

(** What a cell of the sheet's timestamp column holds, and what
    [pd.to_datetime(..., errors='coerce')] makes of it: a timestamp, or
    [NaT] when the cell cannot be parsed. *)
Variable Cell : Type.
Variable to_datetime : Cell -> option Timestamp.

(** A row of the sheet "Internal Requests" as [pd.read_excel] returns it. *)
Record RawRow : Type := mkRawRow {
  Main_Category_Name : option str;
  Product_Name : option str;
  Ticket_Created_At_eet : Cell;
  FP_Name : option str;
  Picker_Name : option str;
  raw_Ticket_Subject : option str
}.

(** The columns one row gets in [load_data]: the renamed ones, [Reporter]
    from the subject, the coerced timestamp and the fields derived from
    it, and the category after [fillna('Undefined')] and
    [replace('', 'Undefined')].  The script computes [Reporter] before it
    drops rows and the other columns after; each is a function of the row
    alone, so the order does not show in the result. *)
Definition load_row (r : RawRow) : Row :=
  let t := to_datetime (Ticket_Created_At_eet r) in
  {| Main_Category :=
       replace [] Undefined (fillna Undefined (Main_Category_Name r));
     Product := Product_Name r;
     Report_Time := t;
     Facility := FP_Name r;
     Picker := Picker_Name r;
     Ticket_Subject := raw_Ticket_Subject r;
     Reporter := extract_reporter (raw_Ticket_Subject r);
     Day := option_map day_name t;
     Hour := option_map ts_hour t;
     Date := option_map ts_date t |}.

(** [load_data]: [dropna(subset=['Report_Time'])] keeps the rows whose
    timestamp was parsed. *)
Definition parsed (r : RawRow) : bool :=
  notna (to_datetime (Ticket_Created_At_eet r)).

Definition load_data (sheet : list RawRow) : list Row :=
  map load_row (filter parsed sheet).

End Loader.

Arguments mkRawRow {Cell}.
Arguments Main_Category_Name {Cell}.
Arguments Product_Name {Cell}.
Arguments Ticket_Created_At_eet {Cell}.
Arguments FP_Name {Cell}.
Arguments Picker_Name {Cell}.
Arguments raw_Ticket_Subject {Cell}.
Arguments load_row {Cell}.
Arguments parsed {Cell}.
Arguments load_data {Cell}.

(* ================================================================== *)
(** * The filter *)

Definition isin (c : str) (values : list str) : bool :=
  existsb (str_eqb c) values.

(** [df['Date'] >= lo] and [df['Date'] <= hi] on one cell.  No loaded row
    has a missing date; on such a cell the comparison is taken to fail. *)
Definition date_ge (d : option date) (lo : date) : bool :=
  match d with
  | Some x => date_leb lo x
  | None => false
  end.

Definition date_le (d : option date) (hi : date) : bool :=
  match d with
  | Some x => date_leb x hi
  | None => false
  end.

Definition keep (lo hi : date) (category_filter : list str) (r : Row) : bool :=
  date_ge (Date r) lo && date_le (Date r) hi
  && isin (Main_Category r) category_filter.

(** [filtered_df].  [date_range] is what the date input returns;
    [date_range[0]] and [date_range[1]] raise [IndexError] ([None] here)
    when it holds fewer than two dates. *)
Definition filtered_df (df : list Row) (date_range : list date)
    (category_filter : list str) : option (list Row) :=
  match nth_error date_range 0, nth_error date_range 1 with
  | Some lo, Some hi => Some (filter (keep lo hi category_filter) df)
  | _, _ => None
  end.

(* ================================================================== *)
(** * The aggregator *)

(** ** Grouping *)

(** The distinct values of a column, in order of first appearance. *)
Fixpoint unique (l : list str) : list str :=
  match l with
  | [] => []
  | x :: l' => x :: filter (fun y => negb (str_eqb y x)) (unique l')
  end.

(** [groupby] sorts the group keys. *)
Fixpoint insert_key (k : str) (l : list str) : list str :=
  match l with
  | [] => [k]
  | y :: l' => if str_leb k y then k :: l else y :: insert_key k l'
  end.

Definition sort_keys (l : list str) : list str := fold_right insert_key [] l.

Definition count_of (k : str) (l : list str) : nat :=
  List.length (filter (str_eqb k) l).

(** A stable sort by descending count, as [sorted(..., reverse=True)] and
    the sort of [value_counts] give; no theorem below depends on the order
    of entries with equal counts. *)
Fixpoint insert_desc (x : str * nat) (l : list (str * nat)) : list (str * nat) :=
  match l with
  | [] => [x]
  | y :: l' => if snd y <=? snd x then x :: l else y :: insert_desc x l'
  end.

Definition sort_desc (l : list (str * nat)) : list (str * nat) :=
  fold_right insert_desc [] l.

(** [x.value_counts().to_dict()]: every distinct value with the number of
    its occurrences, most frequent first; the dict keeps that order. *)
Definition value_counts (x : list str) : list (str * nat) :=
  sort_desc (map (fun k => (k, count_of k x)) (unique x)).

(** One row of [groupby('Main_Category').agg(...).reset_index()].
    ['count'] counts the values of the group that are not missing, and no
    category is missing. *)
Record Group : Type := mkGroup {
  g_Main_Category : str;
  g_Report_Count : nat;
  g_Reporters : list (str * nat)
}.

Definition group_rows (k : str) (fdf : list Row) : list Row :=
  filter (fun r => str_eqb (Main_Category r) k) fdf.

Definition group_keys (fdf : list Row) : list str :=
  sort_keys (unique (map Main_Category fdf)).

Definition agg (fdf : list Row) (k : str) : Group :=
  let rows := group_rows k fdf in
  {| g_Main_Category := k;
     g_Report_Count := List.length rows;
     g_Reporters := value_counts (map Reporter rows) |}.

Definition groupby_agg (fdf : list Row) : list Group :=
  map (agg fdf) (group_keys fdf).

(** ** Percentages: binary64 arithmetic *)

(** An integer count as a float64. *)
Definition float_of_nat (n : nat) : float :=
  PrimFloat.of_uint63 (Uint63.of_Z (Z.of_nat n)).

(** [rint]: the nearest integer, ties to even.  Below 2^52 in magnitude,
    adding and subtracting 2^52 rounds to it; from 2^52 on every float is
    an integer. *)
Definition two52 : float := 4503599627370496%float.

Definition rint (x : float) : float :=
  if PrimFloat.ltb (PrimFloat.abs x) two52 then
    if PrimFloat.ltb x 0%float
    then PrimFloat.add (PrimFloat.sub x two52) two52
    else PrimFloat.sub (PrimFloat.add x two52) two52
  else x.

(** [round(1)] of NumPy: scale by 10, [rint], scale back. *)
Definition round1 (x : float) : float :=
  PrimFloat.div (rint (PrimFloat.mul x 10%float)) 10%float.

(** [(Report_Count / total_reports * 100).round(1)] on one row.  The
    division is that of float64 arrays: by zero it gives [nan] or an
    infinity and raises nothing. *)
Definition percentage (report_count total_reports : nat) : float :=
  round1 (PrimFloat.mul
            (PrimFloat.div (float_of_nat report_count)
                           (float_of_nat total_reports))
            100%float).

(** ** The report *)

Definition format_reporters (reporter_dict : list (str * nat)) : str :=
  let sorted_reporters := sort_desc reporter_dict in
  join (lit ", ")
       (map (fun rc => fst rc ++ lit " (" ++ str_of_nat (snd rc) ++ lit ")")
            sorted_reporters).

(** One row of [category_report]. *)
Record Summary : Type := mkSummary {
  s_Main_Category : str;
  Report_Count : nat;
  Reporters : list (str * nat);
  Percentage : float;
  Top_Reporters : str
}.

Definition total_reports (fdf : list Row) : nat := List.length fdf.

(** The two columns added to a row of the grouping. *)
Definition report_row (total : nat) (g : Group) : Summary :=
  {| s_Main_Category := g_Main_Category g;
     Report_Count := g_Report_Count g;
     Reporters := g_Reporters g;
     Percentage := percentage (g_Report_Count g) total;
     Top_Reporters := format_reporters (g_Reporters g) |}.

Definition category_report (fdf : list Row) : list Summary :=
  map (report_row (total_reports fdf)) (groupby_agg fdf).

(* ================================================================== *)
(** * The exporter *)

(** A cell value of a data frame or of a worksheet. *)
Inductive Value : Type :=
| VNone
| VStr (s : str)
| VInt (n : nat)
| VFloat (f : float)
| VDate (d : date)
| VTime (t : Timestamp).

Definition opt_value {A : Type} (f : A -> Value) (c : option A) : Value :=
  match c with
  | Some a => f a
  | None => VNone
  end.

Record DataFrame : Type := mkDataFrame {
  columns : list str;
  rows : list (list Value)
}.

(** [category_report[['Main_Category', 'Report_Count', 'Percentage',
    'Top_Reporters']]]. *)
Definition summary_df (report : list Summary) : DataFrame :=
  {| columns := map lit ["Main_Category"; "Report_Count"; "Percentage";
                         "Top_Reporters"]%string;
     rows := map (fun s => [VStr (s_Main_Category s); VInt (Report_Count s);
                            VFloat (Percentage s); VStr (Top_Reporters s)])
                 report |}.

(** [filtered_df[['Date', 'Report_Time', 'Main_Category', 'Product',
    'Reporter', 'Facility']]]. *)
Definition detailed_df (fdf : list Row) : DataFrame :=
  {| columns := map lit ["Date"; "Report_Time"; "Main_Category"; "Product";
                         "Reporter"; "Facility"]%string;
     rows := map (fun r => [opt_value VDate (Date r);
                            opt_value VTime (Report_Time r);
                            VStr (Main_Category r);
                            opt_value VStr (Product r);
                            VStr (Reporter r);
                            opt_value VStr (Facility r)])
                 fdf |}.

(** A worksheet is a grid of cells, a workbook a list of named worksheets
    (what the bytes of the file hold). *)
Definition Sheet : Type := list (list Value).
Definition Workbook : Type := list (str * Sheet).

(** A missing value and an empty text leave the cell blank. *)
Definition written (v : Value) : Value :=
  match v with
  | VStr [] => VNone
  | _ => v
  end.

(** [df.to_excel(writer, index=False, sheet_name=name)]: a row of column
    names, then one row of cells per record, and no index column. *)
Definition df_to_excel (writer : Workbook) (df : DataFrame) (name : str)
  : Workbook :=
  writer ++ [(name, map (map written) (map VStr (columns df) :: rows df))].

(** The loop of [to_excel] over [enumerate(dfs)]; [sheet_names[i]] raises
    [IndexError] ([None]) when there are fewer names than frames. *)
Fixpoint to_excel_loop (writer : Workbook) (i : nat) (dfs : list DataFrame)
    (sheet_names : list str) : option Workbook :=
  match dfs with
  | [] => Some writer
  | df :: dfs' =>
      match nth_error sheet_names i with
      | Some name =>
          to_excel_loop (df_to_excel writer df name) (S i) dfs' sheet_names
      | None => None
      end
  end.

Definition to_excel (dfs : list DataFrame) (sheet_names : list str)
  : option Workbook :=
  to_excel_loop [] 0 dfs sheet_names.

(** The file the button produces. *)
Definition excel_file (fdf : list Row) : option Workbook :=
  to_excel [summary_df (category_report fdf); detailed_df fdf]
           (map lit ["Category Summary"; "Detailed Complaints"]%string).

(** ** Reading a sheet back with [pd.read_excel(file, sheet_name=name)]

    The reader drops the blank rows that end the grid, takes the first row
    as the column names and every row after it as a record.  [None] when
    the workbook has no sheet of that name. *)
Definition is_blank (v : Value) : bool :=
  match v with
  | VNone => true
  | _ => false
  end.

Definition blank_row (row : list Value) : bool := forallb is_blank row.

Fixpoint drop_blank_rows (g : Sheet) : Sheet :=
  match g with
  | [] => []
  | row :: g' => if blank_row row then drop_blank_rows g' else g
  end.

Definition trim_sheet (g : Sheet) : Sheet := rev (drop_blank_rows (rev g)).

Definition header_text (v : Value) : str :=
  match v with
  | VStr s => s
  | _ => []
  end.

Definition read_excel (wb : Workbook) (name : str) : option DataFrame :=
  match List.find (fun p => str_eqb (fst p) name) wb with
  | None => None
  | Some (_, g) =>
      match trim_sheet g with
      | [] => Some {| columns := []; rows := [] |}
      | header :: data =>
          Some {| columns := map header_text header; rows := data |}
      end
  end.

(* ================================================================== *)
(** * What the statements below speak of *)

(** The order of dates, and membership of a date cell in an inclusive
    range. *)
Definition date_before_eq (a b : date) : Prop :=
  year a < year b
  \/ (year a = year b
      /\ (month a < month b \/ (month a = month b /\ day a <= day b))).

Definition in_date_range (lo hi : date) (d : option date) : Prop :=
  exists x, d = Some x /\ date_before_eq lo x /\ date_before_eq x hi.

Definition selected (lo hi : date) (categories : list str) (r : Row) : Prop :=
  in_date_range lo hi (Date r) /\ In (Main_Category r) categories.

(** [selection P df sub]: [sub] holds exactly the rows of [df] that satisfy
    [P], each as it is in [df], as often and in the same order. *)
Inductive selection (P : Row -> Prop) : list Row -> list Row -> Prop :=
| selection_nil : selection P [] []
| selection_keep r df sub :
    P r -> selection P df sub -> selection P (r :: df) (r :: sub)
| selection_drop r df sub :
    ~ P r -> selection P df sub -> selection P (r :: df) sub.

Definition valid_timestamp (r : Row) : Prop :=
  exists t, Report_Time r = Some t.

(** [normalized c m]: [m] is the category the loader is to give a row whose
    sheet cell is [c]: "Undefined" for a missing cell and for the empty
    text, the cell's own text otherwise. *)
Inductive normalized : option str -> str -> Prop :=
| normalized_missing : normalized None Undefined
| normalized_empty : normalized (Some []) Undefined
| normalized_kept s : s <> [] -> normalized (Some s) s.

(** A small sheet: its second row has a timestamp that does not parse and
    no category, its third an empty category. *)
Definition at_hour (y m d h : nat) : Timestamp :=
  mkTimestamp (mkdate y m d) h 0 0 0.

Definition sample_sheet : list (RawRow (option Timestamp)) :=
  [ mkRawRow (Some (lit "Late delivery")) (Some (lit "Milk"))
             (Some (at_hour 2024 3 1 9)) (Some (lit "North")) None
             (Some (lit "Issue X reported by Jane Doe"));
    mkRawRow None (Some (lit "Eggs")) None (Some (lit "North")) None
             (Some (lit "Broken box reported by Omar"));
    mkRawRow (Some []) None (Some (at_hour 2024 3 2 14)) (Some (lit "South"))
             None (Some (lit "Wrong item"));
    mkRawRow (Some (lit "Late delivery")) (Some (lit "Bread"))
             (Some (at_hour 2024 3 5 8)) None None None;
    mkRawRow (Some (lit "Damaged")) (Some (lit "Milk"))
             (Some (at_hour 2024 3 5 17)) (Some (lit "South")) None
             (Some (lit "Leak reported by Jane Doe")) ].

Definition sample_df : list Row := load_data (fun c => c) sample_sheet.

(** The sample table in the first week of March 2024, two categories
    selected. *)
Definition sample_range : list date := [mkdate 2024 3 1; mkdate 2024 3 7].
Definition sample_categories : list str := [lit "Late delivery"; lit "Damaged"].
Definition sample_filtered : list Row :=
  filter (keep (mkdate 2024 3 1) (mkdate 2024 3 7) sample_categories) sample_df.

Definition detail_sheet_name : str := lit "Detailed Complaints".

(** The cells of the detail rows as they are in the worksheet. *)
Definition detail_cells (fdf : list Row) : Sheet :=
  map (map written) (rows (detailed_df fdf)).

(* ================================================================== *)
(** * The sidebar defaults, the summary numbers and the views *)

(** [Series.min()] and [Series.max()] of the [Date] column: missing cells
    are skipped, and a column without a date has no minimum ([NaN] in
    pandas, [None] here). *)
Definition present_dates (df : list Row) : list date :=
  flat_map (fun r => match Date r with Some d => [d] | None => [] end) df.

Definition date_min (a b : date) : date := if date_leb a b then a else b.
Definition date_max (a b : date) : date := if date_leb a b then b else a.

Definition Series_min (l : list date) : option date :=
  match l with
  | [] => None
  | x :: l' => Some (fold_left date_min l' x)
  end.

Definition Series_max (l : list date) : option date :=
  match l with
  | [] => None
  | x :: l' => Some (fold_left date_max l' x)
  end.

(** The values the two sidebar inputs start with:
    [[df['Date'].min(), df['Date'].max()]] and
    [df['Main_Category'].unique()]. *)
Definition default_date_range (df : list Row) : option (list date) :=
  match Series_min (present_dates df), Series_max (present_dates df) with
  | Some lo, Some hi => Some [lo; hi]
  | _, _ => None
  end.

Definition default_category_filter (df : list Row) : list str :=
  unique (map Main_Category df).

(** The three numbers of the summary: [len(filtered_df)] is
    [total_reports]; the other two count distinct values. *)
Definition metric_categories (fdf : list Row) : nat :=
  List.length (unique (map Main_Category fdf)).

Definition metric_reporters (fdf : list Row) : nat :=
  List.length (unique (map Reporter fdf)).

(** The table of categories as it is shown:
    [sort_values('Complaints', ascending=False)].  The sort is taken to be
    stable; what is proved of it does not depend on the order of rows with
    equal counts. *)
Fixpoint insert_by_count (s : Summary) (l : list Summary) : list Summary :=
  match l with
  | [] => [s]
  | y :: l' =>
      if Report_Count y <=? Report_Count s then s :: l
      else y :: insert_by_count s l'
  end.

Definition sort_by_count (report : list Summary) : list Summary :=
  fold_right insert_by_count [] report.

(** The pie chart: [filtered_df['Main_Category'].value_counts()]. *)
Definition category_counts (fdf : list Row) : list (str * nat) :=
  value_counts (map Main_Category fdf).

(** The table of one category in the reporter analysis: the entries of the
    reporter mapping by descending count, each with its share of the
    category, [(Reports / Report_Count * 100).round(1)]. *)
Definition reporter_df (category : Summary) : list (str * nat * float) :=
  map (fun rc => (fst rc, snd rc,
                  percentage (snd rc) (Report_Count category)))
      (sort_desc (Reporters category)).


Definition summary_sheet_name : str := lit "Category Summary".



(** What the first three columns of the summary show of a report row. *)
Definition figures (s : Summary) : str * nat * float :=
  (s_Main_Category s, Report_Count s, Percentage s).

(** Orders, as the statements below use them. *)
Definition str_lt (a b : str) : Prop := str_leb a b = true /\ a <> b.
Definition count_ge (a b : str * nat) : Prop := snd b <= snd a.

(** A text that [strip] leaves as it is, and a text on one line. *)
Definition trimmed (s : str) : Prop := strip s = s.
Definition one_line (s : str) : Prop := forallb dot s = true.

(* ================================================================== *)
(** * Properties of the text operations *)

Lemma str_eqb_eq (a b : str) : str_eqb a b = true <-> a = b.
Proof.
  revert b; induction a as [|x a IH]; intros [|y b]; simpl;
    try (split; [discriminate | discriminate]); try tauto.
  rewrite andb_true_iff, N.eqb_eq, IH.
  split; [intros [-> ->]; reflexivity | intros E; inversion E; auto].
Qed.

Lemma str_eqb_refl (a : str) : str_eqb a a = true.
Proof. apply str_eqb_eq; reflexivity. Qed.

Lemma str_eqb_neq (a b : str) : str_eqb a b = false <-> a <> b.
Proof.
  rewrite <- str_eqb_eq. destruct (str_eqb a b); split; congruence.
Qed.

Lemma str_eqb_sym (a b : str) : str_eqb a b = str_eqb b a.
Proof.
  destruct (str_eqb a b) eqn:E.
  - apply str_eqb_eq in E; subst; symmetry; apply str_eqb_refl.
  - destruct (str_eqb b a) eqn:E'; [|reflexivity].
    apply str_eqb_eq in E'; subst. rewrite str_eqb_refl in E; discriminate.
Qed.

Lemma strip_prefix_Some (p s r : str) :
  strip_prefix p s = Some r <-> s = p ++ r.
Proof.
  revert s; induction p as [|x p IH]; intros s; simpl.
  - split; congruence.
  - destruct s as [|y s]; [split; discriminate|].
    destruct (N.eqb_spec x y) as [->|N].
    + rewrite IH. split; [intros ->; reflexivity | intros E; inversion E; auto].
    + split; [discriminate | intros E; inversion E; congruence].
Qed.

Lemma strip_prefix_short (p s : str) :
  List.length s < List.length p -> strip_prefix p s = None.
Proof.
  intros L. destruct (strip_prefix p s) as [r|] eqn:E; [|reflexivity].
  apply strip_prefix_Some in E; subst s.
  rewrite length_app in L; lia.
Qed.

Lemma span_all (f : char -> bool) (s : str) :
  forallb f s = true -> span f s = (s, []).
Proof.
  induction s as [|c s IH]; simpl; [reflexivity|].
  intros H; apply andb_true_iff in H as [Hc Hs].
  rewrite Hc, (IH Hs); reflexivity.
Qed.

Lemma group_to_end_line (s : str) :
  s <> [] -> forallb dot s = true -> group_to_end s = Some s.
Proof.
  intros Hne Hall. unfold group_to_end. rewrite (span_all _ _ Hall).
  destruct s; [contradiction | reflexivity].
Qed.

(** The unfolding equations of the two searches. *)
Lemma re_search_eq (s : str) :
  re_search s =
  match match_at s with
  | Some g => Some g
  | None => match s with [] => None | _ :: s' => re_search s' end
  end.
Proof. destruct s; reflexivity. Qed.

Lemma str_find_eq (p s : str) :
  str_find p s =
  match strip_prefix p s with
  | Some _ => Some O
  | None => match s with [] => None | _ :: s' => option_map S (str_find p s') end
  end.
Proof. destruct s; reflexivity. Qed.

Lemma match_at_no_prefix (s : str) :
  strip_prefix reported_by s = None -> match_at s = None.
Proof. unfold match_at; intros ->; reflexivity. Qed.

Lemma re_search_short (s : str) :
  List.length s < List.length reported_by -> re_search s = None.
Proof.
  induction s as [|c s IH]; intros L; rewrite re_search_eq;
    rewrite (match_at_no_prefix _ (strip_prefix_short _ _ L)); [reflexivity|].
  apply IH. change (S (List.length s) < List.length reported_by) in L. lia.
Qed.

(** No occurrence of the literal, no match. *)
Lemma re_search_absent (s : str) :
  str_find reported_by s = None -> re_search s = None.
Proof.
  induction s as [|c s IH]; rewrite str_find_eq, re_search_eq;
    destruct (strip_prefix reported_by _) eqn:E; try discriminate;
    rewrite (match_at_no_prefix _ E); [reflexivity|].
  destruct (str_find reported_by s); [discriminate|]. intros _; apply IH; reflexivity.
Qed.

(** The first occurrence decides the match when the text after it has no
    line feed: the match is that text, or there is none when it is empty. *)
Lemma re_search_first (s : str) (i : nat) :
  str_find reported_by s = Some i ->
  forallb dot (skipn (i + List.length reported_by) s) = true ->
  re_search s =
  match skipn (i + List.length reported_by) s with
  | [] => None
  | rest => Some rest
  end.
Proof.
  revert i; induction s as [|c s IH]; intros i; rewrite str_find_eq, re_search_eq.
  - rewrite (strip_prefix_short reported_by []) by (vm_compute; lia). discriminate.
  - destruct (strip_prefix reported_by (c :: s)) as [r|] eqn:E.
    + intros [= <-]. apply strip_prefix_Some in E as E'.
      rewrite E', Nat.add_0_l, skipn_app, skipn_all, Nat.sub_diag. simpl skipn.
      intros Hdot. unfold match_at. rewrite <- E', E.
      destruct r as [|x r].
      * assert (Hl : List.length s < List.length reported_by).
        { apply (f_equal (@List.length _)) in E'. rewrite app_nil_r in E'.
          change (S (List.length s) = List.length reported_by) in E'. lia. }
        rewrite (re_search_short _ Hl). reflexivity.
      * rewrite group_to_end_line by (assumption || discriminate). reflexivity.
    + rewrite (match_at_no_prefix _ E).
      destruct (str_find reported_by s) as [j|] eqn:F; [|discriminate].
      intros [= <-]. simpl plus. simpl skipn. apply IH; reflexivity.
Qed.

Lemma str_find_occurs (p s : str) (i : nat) :
  str_find p s = Some i ->
  s = firstn i s ++ p ++ skipn (i + List.length p) s.
Proof.
  revert i; induction s as [|c s IH]; intros i; rewrite str_find_eq.
  - destruct (strip_prefix p []) eqn:E; [|discriminate].
    intros [= <-]. apply strip_prefix_Some in E. destruct p; [reflexivity|discriminate].
  - destruct (strip_prefix p (c :: s)) as [r|] eqn:E.
    + intros [= <-]. apply strip_prefix_Some in E. rewrite E at 1.
      rewrite E, Nat.add_0_l, skipn_app, skipn_all, Nat.sub_diag. reflexivity.
    + destruct (str_find p s) as [j|] eqn:F; [|discriminate].
      intros [= <-]. simpl. f_equal. apply IH; reflexivity.
Qed.

(* ================================================================== *)
(** * Reporter extraction *)

(** C1 (as amended).  A missing subject gives "Unknown"; so does a subject
    without the literal substring "reported by " (the search is
    case-sensitive, on code points).  When the substring is present and the
    text after its first occurrence has no line break, the result is that
    text trimmed of surrounding whitespace if it is not empty, and
    "Unknown" if it is empty: the pattern wants at least one character
    after the substring. *)
Theorem extract_reporter_amended (subject : option str) :
  (forall s i, subject = Some s -> str_find reported_by s = Some i ->
     forallb dot (skipn (i + List.length reported_by) s) = true) ->
  extract_reporter subject =
  match subject with
  | None => Unknown
  | Some s =>
      match str_find reported_by s with
      | None => Unknown
      | Some i =>
          match skipn (i + List.length reported_by) s with
          | [] => Unknown
          | rest => strip rest
          end
      end
  end.
Proof.
  destruct subject as [s|]; [|reflexivity].
  intros H. unfold extract_reporter.
  destruct (str_find reported_by s) as [i|] eqn:F.
  - rewrite (re_search_first s i F (H s i eq_refl F)).
    destruct (skipn _ s); reflexivity.
  - rewrite (re_search_absent s F). reflexivity.
Qed.

(** C1, witness: "Issue X reported by Jane Doe" yields "Jane Doe". *)
Lemma extract_reporter_amended_witness :
  extract_reporter (Some (lit "Issue X reported by Jane Doe")) = lit "Jane Doe".
Proof.
  etransitivity.
  - apply (extract_reporter_amended (Some (lit "Issue X reported by Jane Doe"))).
    intros s i [= <-]. vm_compute. intros [= <-]. reflexivity.
  - vm_compute. reflexivity.
Defined.

(** C1, counterexample.  In "Ticket 7 reported by " the substring is present
    (at index 9) and nothing follows it: the remainder, trimmed, is the empty
    text, and the code returns "Unknown".  In the two-line subject the
    substring is present too and the code returns "Unknown", not the
    remainder. *)
Lemma extract_reporter_not_remainder :
  str_find reported_by (lit "Ticket 7 reported by ") = Some 9
  /\ spec_extract_reporter (Some (lit "Ticket 7 reported by ")) = []
  /\ extract_reporter (Some (lit "Ticket 7 reported by ")) = Unknown
  /\ str_eqb (extract_reporter (Some (lit "Ticket 7 reported by ")))
             (spec_extract_reporter (Some (lit "Ticket 7 reported by "))) = false
  /\ str_find reported_by (lit "reported by Ann" ++ [LF] ++ lit "second line") = Some 0
  /\ spec_extract_reporter
       (Some (lit "reported by Ann" ++ [LF] ++ lit "second line"))
     = lit "Ann" ++ [LF] ++ lit "second line"
  /\ extract_reporter
       (Some (lit "reported by Ann" ++ [LF] ++ lit "second line"))
     = Unknown.
Proof. vm_compute. repeat split; reflexivity. Qed.

(** C10.  Some subject in which "reported by " is followed only by
    whitespace up to the end of the text yields the empty text, which is not
    "Unknown". *)
Theorem extract_reporter_empty_name :
  exists pre ws : str,
    ws <> []
    /\ forallb isspace ws = true
    /\ extract_reporter (Some (pre ++ reported_by ++ ws)) = []
    /\ extract_reporter (Some (pre ++ reported_by ++ ws)) <> Unknown.
Proof.
  exists (lit "Ticket 7 "), (lit "  ").
  split; [discriminate|]. split; [reflexivity|].
  split; [vm_compute; reflexivity | vm_compute; discriminate].
Qed.

(* ================================================================== *)
(** * The filter *)

Lemma date_leb_spec (a b : date) : date_leb a b = true <-> date_before_eq a b.
Proof.
  unfold date_leb, date_before_eq.
  rewrite !orb_true_iff, !andb_true_iff, !orb_true_iff, !andb_true_iff,
    !Nat.ltb_lt, !Nat.eqb_eq, Nat.leb_le.
  tauto.
Qed.

Lemma isin_spec (c : str) (values : list str) :
  isin c values = true <-> In c values.
Proof.
  unfold isin. rewrite existsb_exists. split.
  - intros [x [Hx E]]. apply str_eqb_eq in E; subst; assumption.
  - intros H; exists c; split; [assumption | apply str_eqb_refl].
Qed.

Lemma date_range_spec (lo hi : date) (d : option date) :
  date_ge d lo && date_le d hi = true <-> in_date_range lo hi d.
Proof.
  unfold in_date_range, date_ge, date_le. destruct d as [x|].
  - rewrite andb_true_iff, !date_leb_spec. split.
    + intros H; exists x; tauto.
    + intros [y [[= <-] H]]; exact H.
  - split; [discriminate | intros [y [E _]]; discriminate].
Qed.

Lemma keep_spec (lo hi : date) (categories : list str) (r : Row) :
  keep lo hi categories r = true <-> selected lo hi categories r.
Proof.
  unfold keep, selected.
  rewrite andb_true_iff, date_range_spec, isin_spec. tauto.
Qed.

Lemma filter_selection (P : Row -> Prop) (f : Row -> bool) (df : list Row) :
  (forall r, f r = true <-> P r) -> selection P df (filter f df).
Proof.
  intros H. induction df as [|r df IH]; simpl; [constructor|].
  destruct (f r) eqn:E.
  - apply selection_keep; [apply H; assumption | assumption].
  - apply selection_drop; [|assumption].
    intros HP; apply H in HP; congruence.
Qed.

(** C4.  For every table, every range [start, end_] and every selection of
    categories the filter succeeds, and returns exactly the rows whose date
    lies in the inclusive range and whose category is among the selected
    ones: each such row, unaltered, as often and in the order it has in the
    table, and no other row. *)
Theorem filtered_df_exact (df : list Row) (start end_ : date)
    (categories : list str) :
  exists fdf,
    filtered_df df [start; end_] categories = Some fdf
    /\ selection (selected start end_ categories) df fdf
    /\ (forall r, In r fdf <-> In r df /\ selected start end_ categories r).
Proof.
  exists (filter (keep start end_ categories) df).
  split; [reflexivity|]. split.
  - apply filter_selection, keep_spec.
  - intros r. rewrite filter_In, keep_spec. tauto.
Qed.

(** C5.  When no row of the table has its date in the range, filtering
    succeeds with the empty table, the three totals (complaints, categories,
    reporters) are zero and the category summary is empty: no percentage is
    computed, and the division, which is IEEE division, raises nothing in
    any case. *)
Theorem empty_range_empty_report (df : list Row) (start end_ : date)
    (categories : list str) :
  (forall r, In r df -> ~ in_date_range start end_ (Date r)) ->
  exists fdf,
    filtered_df df [start; end_] categories = Some fdf
    /\ fdf = []
    /\ total_reports fdf = 0
    /\ List.length (unique (map Main_Category fdf)) = 0
    /\ List.length (unique (map Reporter fdf)) = 0
    /\ groupby_agg fdf = []
    /\ category_report fdf = [].
Proof.
  intros H. exists [].
  split; [|repeat split; reflexivity].
  unfold filtered_df; simpl. f_equal.
  induction df as [|r df IH]; simpl; [reflexivity|].
  destruct (keep start end_ categories r) eqn:E.
  - apply keep_spec in E. destruct E as [E _].
    exfalso; apply (H r); [left; reflexivity | exact E].
  - apply IH. intros r' Hr'. apply H. right; assumption.
Qed.

(** C5, witness: the sample table has no row in January 2023. *)
Lemma empty_range_empty_report_witness :
  exists fdf,
    filtered_df sample_df [mkdate 2023 1 1; mkdate 2023 1 31]
                [lit "Late delivery"; lit "Damaged"; Undefined] = Some fdf
    /\ fdf = []
    /\ total_reports fdf = 0
    /\ List.length (unique (map Main_Category fdf)) = 0
    /\ List.length (unique (map Reporter fdf)) = 0
    /\ groupby_agg fdf = []
    /\ category_report fdf = [].
Proof.
  apply (empty_range_empty_report sample_df (mkdate 2023 1 1) (mkdate 2023 1 31)).
  intros r Hr [x [E [Hlo Hhi]]].
  apply date_leb_spec in Hhi.
  vm_compute in Hr.
  repeat (destruct Hr as [<-|Hr]; [vm_compute in E; injection E as <-; vm_compute in Hhi; discriminate|]).
  exact Hr.
Defined.

Lemma filtered_df_incl (df : list Row) (date_range : list date)
    (categories : list str) (fdf : list Row) :
  filtered_df df date_range categories = Some fdf ->
  forall r, In r fdf -> In r df.
Proof.
  unfold filtered_df.
  destruct (nth_error date_range 0); [|discriminate].
  destruct (nth_error date_range 1); [|discriminate].
  intros [= <-] r Hr. apply filter_In in Hr. tauto.
Qed.

Lemma filtered_df_Forall (P : Row -> Prop) (df : list Row)
    (date_range : list date) (categories : list str) (fdf : list Row) :
  filtered_df df date_range categories = Some fdf ->
  Forall P df -> Forall P fdf.
Proof.
  intros F H. rewrite Forall_forall in *.
  intros r Hr. apply H. eapply filtered_df_incl; eassumption.
Qed.

(* ================================================================== *)
(** * The loader *)

Section LoaderFacts.

Context {Cell : Type} (to_datetime : Cell -> option Timestamp).

Lemma load_data_eq (sheet : list (RawRow Cell)) :
  load_data to_datetime sheet
  = map (load_row to_datetime) (filter (parsed to_datetime) sheet).
Proof. reflexivity. Qed.

Lemma normalized_not_empty (c : option str) :
  replace [] Undefined (fillna Undefined c) <> [].
Proof.
  unfold replace. destruct (str_eqb (fillna Undefined c) []) eqn:E.
  - discriminate.
  - apply str_eqb_neq in E. exact E.
Qed.

Lemma load_data_category_not_empty (sheet : list (RawRow Cell)) :
  Forall (fun row => Main_Category row <> []) (load_data to_datetime sheet).
Proof.
  rewrite load_data_eq. apply Forall_map, Forall_forall.
  intros raw _. apply normalized_not_empty.
Qed.

Lemma load_data_valid (sheet : list (RawRow Cell)) :
  Forall valid_timestamp (load_data to_datetime sheet).
Proof.
  rewrite load_data_eq. apply Forall_map, Forall_forall.
  intros raw Hraw. apply filter_In in Hraw as [_ Hp].
  unfold parsed in Hp. unfold valid_timestamp; simpl.
  destruct (to_datetime (Ticket_Created_At_eet raw)) as [t|];
    [exists t; reflexivity | discriminate].
Qed.

Lemma load_data_timestamps (sheet : list (RawRow Cell)) :
  map Report_Time (load_data to_datetime sheet)
  = filter notna (map (fun raw => to_datetime (Ticket_Created_At_eet raw)) sheet).
Proof.
  rewrite load_data_eq.
  induction sheet as [|raw sheet IH]; [reflexivity|].
  cbn [filter map]. unfold parsed at 1.
  destruct (to_datetime (Ticket_Created_At_eet raw)) as [t|] eqn:E;
    cbn [notna map]; rewrite IH; [|reflexivity].
  cbn [load_row Report_Time]. rewrite E. reflexivity.
Qed.

End LoaderFacts.


(* ================================================================== *)
(** * The aggregator *)

(** ** Distinct values and counts *)

Lemma filter_neq_In (a k : str) (l : list str) :
  In k (filter (fun y => negb (str_eqb y a)) l) <-> In k l /\ k <> a.
Proof.
  rewrite filter_In, negb_true_iff, str_eqb_neq. tauto.
Qed.

Lemma unique_In (k : str) (l : list str) : In k (unique l) <-> In k l.
Proof.
  induction l as [|x l IH]; simpl; [tauto|].
  rewrite filter_neq_In, IH.
  destruct (str_eqb k x) eqn:E.
  - apply str_eqb_eq in E; subst. tauto.
  - apply str_eqb_neq in E. split; [tauto|].
    intros [->|H]; [tauto | right; tauto].
Qed.

Lemma unique_NoDup (l : list str) : NoDup (unique l).
Proof.
  induction l as [|x l IH]; simpl; constructor.
  - rewrite filter_neq_In. tauto.
  - apply NoDup_filter, IH.
Qed.

Lemma count_of_cons (k x : str) (l : list str) :
  count_of k (x :: l) = (if str_eqb k x then 1 else 0) + count_of k l.
Proof. unfold count_of; simpl. destruct (str_eqb k x); reflexivity. Qed.

Lemma count_of_absent (k : str) (l : list str) :
  ~ In k l -> count_of k l = 0.
Proof.
  induction l as [|x l IH]; intros H; [reflexivity|].
  rewrite count_of_cons, IH by (intros H'; apply H; right; exact H').
  destruct (str_eqb k x) eqn:E; [|reflexivity].
  apply str_eqb_eq in E; subst. exfalso; apply H; left; reflexivity.
Qed.

Lemma filter_neq_absent (a : str) (l : list str) :
  ~ In a l -> filter (fun y => negb (str_eqb y a)) l = l.
Proof.
  induction l as [|x l IH]; intros H; simpl; [reflexivity|].
  destruct (str_eqb x a) eqn:E; simpl.
  - apply str_eqb_eq in E; subst. exfalso; apply H; left; reflexivity.
  - f_equal. apply IH. intros H'; apply H; right; exact H'.
Qed.

(** A sum over distinct keys, with the term of one key taken out. *)
Lemma list_sum_take_out (f : str -> nat) (a : str) (l : list str) :
  NoDup l -> (~ In a l -> f a = 0) ->
  list_sum (map f l)
  = f a + list_sum (map f (filter (fun y => negb (str_eqb y a)) l)).
Proof.
  induction l as [|x l IH]; intros ND Hz.
  - simpl. rewrite Hz by (intros []). reflexivity.
  - inversion ND as [|? ? Hx ND']; subst. simpl.
    destruct (str_eqb x a) eqn:E; simpl.
    + apply str_eqb_eq in E; subst. rewrite filter_neq_absent by assumption.
      reflexivity.
    + apply str_eqb_neq in E. rewrite (IH ND'); [lia|].
      intros H. apply Hz. intros [H'|H']; [congruence | contradiction].
Qed.

(** The counts of the distinct values add up to the number of values. *)
Lemma count_of_unique_sum (l : list str) :
  list_sum (map (fun k => count_of k l) (unique l)) = List.length l.
Proof.
  induction l as [|x l IH]; [reflexivity|].
  cbn [unique map list_sum List.length].
  rewrite count_of_cons, str_eqb_refl.
  rewrite (map_ext_in (fun k => count_of k (x :: l)) (fun k => count_of k l)).
  - rewrite <- IH.
    rewrite (list_sum_take_out (fun k => count_of k l) x (unique l) (unique_NoDup l)).
    + reflexivity.
    + intros H. apply count_of_absent. rewrite <- unique_In. exact H.
  - intros k Hk. apply filter_neq_In in Hk as [_ Hk].
    rewrite count_of_cons. apply str_eqb_neq in Hk. rewrite Hk. reflexivity.
Qed.

(** ** The two sorts only reorder *)

Lemma insert_key_perm (k : str) (l : list str) :
  Permutation (insert_key k l) (k :: l).
Proof.
  induction l as [|y l IH]; simpl; [reflexivity|].
  destruct (str_leb k y); [reflexivity|].
  rewrite IH. apply perm_swap.
Qed.

Lemma sort_keys_perm (l : list str) : Permutation (sort_keys l) l.
Proof.
  induction l as [|x l IH]; simpl; [reflexivity|].
  rewrite insert_key_perm, IH. reflexivity.
Qed.

Lemma insert_desc_perm (x : str * nat) (l : list (str * nat)) :
  Permutation (insert_desc x l) (x :: l).
Proof.
  induction l as [|y l IH]; simpl; [reflexivity|].
  destruct (snd y <=? snd x); [reflexivity|].
  rewrite IH. apply perm_swap.
Qed.

Lemma sort_desc_perm (l : list (str * nat)) : Permutation (sort_desc l) l.
Proof.
  induction l as [|x l IH]; simpl; [reflexivity|].
  rewrite insert_desc_perm, IH. reflexivity.
Qed.

Lemma list_sum_perm (l l' : list nat) :
  Permutation l l' -> list_sum l = list_sum l'.
Proof.
  induction 1; simpl; lia.
Qed.

(** [value_counts] counts every value once. *)
Lemma value_counts_sum (x : list str) :
  list_sum (map snd (value_counts x)) = List.length x.
Proof.
  unfold value_counts.
  erewrite list_sum_perm by (apply Permutation_map, sort_desc_perm).
  rewrite map_map. cbn [snd]. apply count_of_unique_sum.
Qed.

(** ** The rows of the report *)

Lemma group_keys_In (k : str) (fdf : list Row) :
  In k (group_keys fdf) <-> In k (map Main_Category fdf).
Proof.
  unfold group_keys. split; intros H.
  - apply unique_In. eapply Permutation_in; [apply sort_keys_perm | exact H].
  - eapply Permutation_in; [symmetry; apply sort_keys_perm|].
    apply unique_In, H.
Qed.

Lemma group_keys_NoDup (fdf : list Row) : NoDup (group_keys fdf).
Proof.
  unfold group_keys.
  apply (Permutation_NoDup (Permutation_sym (sort_keys_perm _))), unique_NoDup.
Qed.

Lemma category_report_In (s : Summary) (fdf : list Row) :
  In s (category_report fdf) <->
  exists k, In k (group_keys fdf)
            /\ s = report_row (total_reports fdf) (agg fdf k).
Proof.
  unfold category_report, groupby_agg. rewrite map_map, in_map_iff.
  split; intros [k [H1 H2]]; exists k; split; auto.
Qed.

(** C6.  The loader gives every row it retains the category of its sheet
    row, except that a missing category and the empty text become
    "Undefined"; so no row that reaches the filter or the aggregator has an
    empty (or missing) category. *)
Theorem load_data_category_normalized (Cell : Type)
    (to_datetime : Cell -> option Timestamp) (sheet : list (RawRow Cell)) :
  Forall2 (fun raw row => normalized (Main_Category_Name raw) (Main_Category row))
          (filter (parsed to_datetime) sheet)
          (load_data to_datetime sheet)
  /\ Forall (fun row => Main_Category row <> []) (load_data to_datetime sheet)
  /\ (forall date_range categories,
        match filtered_df (load_data to_datetime sheet) date_range categories with
        | Some fdf =>
            Forall (fun row => Main_Category row <> []) fdf
            /\ Forall (fun s => s_Main_Category s <> []) (category_report fdf)
        | None => True
        end).
Proof.
  split; [|split].
  - rewrite load_data_eq.
    induction (filter (parsed to_datetime) sheet) as [|raw l IH]; cbn [map];
      constructor; [|exact IH].
    cbn [load_row Main_Category].
    destruct (Main_Category_Name raw) as [[|x s]|]; constructor. discriminate.
  - apply load_data_category_not_empty.
  - intros date_range categories.
    destruct (filtered_df _ date_range categories) as [fdf|] eqn:F; [|exact I].
    assert (H : Forall (fun row => Main_Category row <> []) fdf).
    { eapply filtered_df_Forall; [exact F | apply load_data_category_not_empty]. }
    split; [exact H|].
    apply Forall_forall. intros s Hs.
    apply category_report_In in Hs as [k [Hk ->]].
    cbn [report_row agg s_Main_Category g_Main_Category].
    apply group_keys_In, in_map_iff in Hk as [r [<- Hr]].
    rewrite Forall_forall in H. apply H, Hr.
Qed.

(** The derived columns of the first sample row: 1 March 2024 was a
    Friday. *)
Example sample_df_derived :
  map Day (firstn 1 sample_df) = [Some (lit "Friday")]
  /\ map Hour (firstn 1 sample_df) = [Some 9]
  /\ map Date (firstn 1 sample_df) = [Some (mkdate 2024 3 1)]
  /\ map Reporter sample_df
     = [lit "Jane Doe"; Unknown; Unknown; lit "Jane Doe"].
Proof. vm_compute. repeat split; reflexivity. Qed.

(** C6 on the sample sheet: the row without a timestamp is dropped, the
    empty category of the third row becomes "Undefined". *)
Example sample_df_categories :
  map Main_Category sample_df
  = [lit "Late delivery"; Undefined; lit "Late delivery"; lit "Damaged"].
Proof. vm_compute. reflexivity. Qed.

(** The report counts add up to the number of filtered rows. *)
Lemma group_rows_length (k : str) (fdf : list Row) :
  List.length (group_rows k fdf) = count_of k (map Main_Category fdf).
Proof.
  unfold group_rows, count_of.
  induction fdf as [|r fdf IH]; simpl; [reflexivity|].
  rewrite (str_eqb_sym k). destruct (str_eqb (Main_Category r) k); simpl; rewrite IH; reflexivity.
Qed.

Lemma report_counts_total (fdf : list Row) :
  list_sum (map Report_Count (category_report fdf)) = total_reports fdf.
Proof.
  unfold category_report, groupby_agg, total_reports. rewrite !map_map.
  cbn [report_row agg Report_Count g_Report_Count].
  rewrite (map_ext _ (fun k => count_of k (map Main_Category fdf)))
    by (intros k; apply group_rows_length).
  unfold group_keys.
  erewrite list_sum_perm by (apply Permutation_map, sort_keys_perm).
  rewrite count_of_unique_sum. apply length_map.
Qed.

(** C7.  In every row of the category report the counts of the reporter
    mapping add up to the row's report count. *)
Theorem reporter_counts_sum (fdf : list Row) (s : Summary) :
  In s (category_report fdf) ->
  list_sum (map snd (Reporters s)) = Report_Count s.
Proof.
  intros H. apply category_report_In in H as [k [_ ->]].
  cbn [report_row agg Reporters Report_Count g_Reporters g_Report_Count].
  rewrite value_counts_sum. apply length_map.
Qed.

(** C7, witness: the category "Late delivery" of the sample table, with one
    report by Jane Doe and one by an unknown reporter. *)
Lemma reporter_counts_sum_witness :
  Reporters (report_row 4 (agg sample_df (lit "Late delivery")))
  = [(lit "Jane Doe", 1); (Unknown, 1)]
  /\ list_sum (map snd (Reporters (report_row 4 (agg sample_df (lit "Late delivery")))))
     = Report_Count (report_row 4 (agg sample_df (lit "Late delivery"))).
Proof.
  split; [vm_compute; reflexivity|].
  apply (reporter_counts_sum sample_df).
  vm_compute. right; left; reflexivity.
Defined.



(** The sample: 2 of the 3 filtered rows is 66.7 (the float nearest to
    667/10), not the 50.0 that 2 of the 4 loaded rows would be; and the two
    percentages add up to 100. *)
Example sample_percentages :
  List.length sample_df = 4
  /\ map (fun s => (s_Main_Category s, Report_Count s)) (category_report sample_filtered)
     = [(lit "Damaged", 1); (lit "Late delivery", 2)]
  /\ map Percentage (category_report sample_filtered)
     = [percentage 1 3; percentage 2 3]
  /\ percentage 1 3 = PrimFloat.div 333 10
  /\ percentage 2 3 = PrimFloat.div 667 10
  /\ percentage 2 4 = 50%float
  /\ PrimFloat.eqb (PrimFloat.add (percentage 1 3) (percentage 2 3)) 100%float = true.
Proof. vm_compute. repeat split; reflexivity. Qed.

(** The arithmetic is binary64 throughout: 23 rows of 80 are 28.75 percent,
    the product [23 / 80 * 100] is the float just below it, and the
    percentage is 28.7. *)
Example percentage_23_of_80 :
  percentage 23 80 = PrimFloat.div 287 10
  /\ PrimFloat.ltb (PrimFloat.mul (PrimFloat.div 23 80) 100) (PrimFloat.div 115 4)
     = true.
Proof. vm_compute. split; reflexivity. Qed.

Example rint_ties_to_even :
  rint (PrimFloat.div 1 2) = 0%float
  /\ rint (PrimFloat.div 3 2) = 2%float
  /\ rint (PrimFloat.div 5 2) = 2%float
  /\ rint (PrimFloat.div 1000 3) = 333%float
  /\ rint (PrimFloat.div 2000 3) = 667%float.
Proof. vm_compute. repeat split; reflexivity. Qed.

(** Three categories of one row each have 33.3 each, 99.9 in all: the
    percentages of a report add up to 100 only up to their rounding. *)
Example thirds_percentages :
  PrimFloat.ltb (PrimFloat.add (PrimFloat.add (percentage 1 3) (percentage 1 3))
                               (percentage 1 3))
                100%float = true.
Proof. vm_compute. reflexivity. Qed.

(* ================================================================== *)
(** * The exporter *)

Lemma drop_blank_rows_head (g : Sheet) :
  Forall (fun row => blank_row row = false) g -> drop_blank_rows g = g.
Proof.
  intros H. destruct H as [|row g Hrow _]; simpl; [reflexivity|].
  rewrite Hrow. reflexivity.
Qed.

Lemma trim_sheet_full (g : Sheet) :
  Forall (fun row => blank_row row = false) g -> trim_sheet g = g.
Proof.
  intros H. unfold trim_sheet.
  rewrite drop_blank_rows_head by (apply Forall_rev, H).
  apply rev_involutive.
Qed.

Lemma detail_cells_not_blank (fdf : list Row) :
  Forall (fun r => Main_Category r <> []) fdf ->
  Forall (fun row => blank_row row = false) (detail_cells fdf).
Proof.
  intros H. unfold detail_cells, detailed_df; cbn [rows].
  rewrite map_map. apply Forall_map.
  eapply Forall_impl; [|exact H].
  intros r Hr. cbn [map blank_row forallb].
  cbv beta in Hr.
  destruct (Main_Category r) as [|x c] eqn:E; [exfalso; apply Hr; reflexivity|].
  cbn [written is_blank]. rewrite !andb_false_r. reflexivity.
Qed.

(** The file holds the two sheets, and the detail sheet reads back as the
    detail frame when no row of it is blank. *)
Lemma excel_file_read_back (fdf : list Row) :
  Forall (fun r => Main_Category r <> []) fdf ->
  exists wb,
    excel_file fdf = Some wb
    /\ read_excel wb detail_sheet_name
       = Some {| columns := columns (detailed_df fdf);
                 rows := detail_cells fdf |}.
Proof.
  intros H. eexists. split; [reflexivity|].
  unfold read_excel, df_to_excel.
  cbn [app List.find fst map].
  change (str_eqb (lit "Category Summary") detail_sheet_name) with false.
  change (str_eqb (lit "Detailed Complaints") detail_sheet_name) with true.
  cbv iota.
  change (map (map written) (map VStr (columns (detailed_df fdf)) :: rows (detailed_df fdf)))
    with (map written (map VStr (columns (detailed_df fdf))) :: detail_cells fdf).
  rewrite trim_sheet_full.
  - reflexivity.
  - constructor; [reflexivity | apply detail_cells_not_blank, H].
Qed.

(** C9.  For every filtered set of a loaded table, the export succeeds and
    reading the sheet "Detailed Complaints" of the file back gives the
    columns of the detail frame and as many rows as the filtered set has:
    the sheet has one header row and one row per filtered record. *)
Theorem export_detail_round_trip (Cell : Type)
    (to_datetime : Cell -> option Timestamp) (sheet : list (RawRow Cell))
    (date_range : list date) (categories : list str) (fdf : list Row) :
  filtered_df (load_data to_datetime sheet) date_range categories = Some fdf ->
  exists wb df,
    excel_file fdf = Some wb
    /\ read_excel wb detail_sheet_name = Some df
    /\ columns df = columns (detailed_df fdf)
    /\ List.length (rows df) = List.length fdf.
Proof.
  intros F.
  destruct (excel_file_read_back fdf) as [wb [Hwb Hread]].
  - eapply filtered_df_Forall; [exact F | apply load_data_category_not_empty].
  - exists wb. eexists. split; [exact Hwb|]. split; [exact Hread|].
    split; [reflexivity|].
    unfold detail_cells, detailed_df; cbn [rows]. rewrite !length_map. reflexivity.
Qed.

(** C9, witness: the three filtered rows of the sample table. *)
Lemma export_detail_round_trip_witness :
  exists wb df,
    excel_file sample_filtered = Some wb
    /\ read_excel wb detail_sheet_name = Some df
    /\ columns df = columns (detailed_df sample_filtered)
    /\ List.length (rows df) = List.length sample_filtered.
Proof.
  apply (export_detail_round_trip (option Timestamp) (fun c => c)
                                  sample_sheet sample_range
                                  sample_categories sample_filtered).
  reflexivity.
Defined.

Example sample_export_rows :
  List.length sample_filtered = 3
  /\ option_map (fun wb => map (fun p => List.length (snd p)) wb)
                (excel_file sample_filtered) = Some [3; 4].
Proof. vm_compute. split; reflexivity. Qed.

(* ================================================================== *)
(** * Valid timestamps, from the loader to the export *)

Lemma valid_timestamp_notna (r : Row) :
  valid_timestamp r <-> notna (Report_Time r) = true.
Proof.
  unfold valid_timestamp. destruct (Report_Time r) as [t|]; simpl.
  - split; [reflexivity | intros _; exists t; reflexivity].
  - split; [intros [t E]; discriminate | discriminate].
Qed.

Lemma detail_cells_timestamps (fdf : list Row) :
  Forall valid_timestamp fdf ->
  Forall (fun cells => exists t, nth_error cells 1 = Some (VTime t))
         (detail_cells fdf).
Proof.
  intros H. unfold detail_cells, detailed_df; cbn [rows].
  rewrite map_map. apply Forall_map.
  eapply Forall_impl; [|exact H].
  intros r [t E]. exists t. cbn [map nth_error]. rewrite E. reflexivity.
Qed.

(** C8.  The loader keeps exactly the rows whose timestamp parses, so every
    loaded row has a valid timestamp, and so has every row after it: every
    row of a filtered set, every row the aggregator counts, and every
    row of the exported detail sheet, whose [Report_Time] cell is a
    timestamp. *)
Theorem timestamps_valid_throughout (Cell : Type)
    (to_datetime : Cell -> option Timestamp) (sheet : list (RawRow Cell))
    (date_range : list date) (categories : list str) (fdf : list Row) :
  filtered_df (load_data to_datetime sheet) date_range categories = Some fdf ->
  Forall valid_timestamp (load_data to_datetime sheet)
  /\ map Report_Time (load_data to_datetime sheet)
     = filter notna (map (fun raw => to_datetime (Ticket_Created_At_eet raw)) sheet)
  /\ Forall valid_timestamp fdf
  /\ Forall (fun s =>
               Report_Count s
               = List.length
                   (filter (fun r => str_eqb (Main_Category r) (s_Main_Category s)
                                     && notna (Report_Time r)) fdf))
            (category_report fdf)
  /\ exists wb df,
       excel_file fdf = Some wb
       /\ read_excel wb detail_sheet_name = Some df
       /\ List.length (rows df) = List.length fdf
       /\ Forall (fun cells => exists t, nth_error cells 1 = Some (VTime t))
                 (rows df).
Proof.
  intros F.
  assert (V : Forall valid_timestamp fdf).
  { eapply filtered_df_Forall; [exact F | apply load_data_valid]. }
  split; [apply load_data_valid|].
  split; [apply load_data_timestamps|].
  split; [exact V|]. split.
  - apply Forall_forall. intros s Hs.
    apply category_report_In in Hs as [k [_ ->]].
    cbn [report_row agg Report_Count s_Main_Category g_Report_Count g_Main_Category].
    unfold group_rows. f_equal. apply filter_ext_in.
    intros r Hr. rewrite Forall_forall in V.
    apply V, valid_timestamp_notna in Hr. rewrite Hr, andb_true_r. reflexivity.
  - destruct (excel_file_read_back fdf) as [wb [Hwb Hread]].
    + eapply filtered_df_Forall; [exact F | apply load_data_category_not_empty].
    + exists wb. eexists. split; [exact Hwb|]. split; [exact Hread|].
      cbn [rows]. split.
      * unfold detail_cells, detailed_df; cbn [rows]. rewrite !length_map. reflexivity.
      * apply detail_cells_timestamps, V.
Qed.

(** C8, witness: the sample sheet, whose second row does not parse. *)
Lemma timestamps_valid_throughout_witness :
  Forall valid_timestamp sample_df
  /\ map Report_Time sample_df
     = filter notna (map (fun raw => Ticket_Created_At_eet raw) sample_sheet)
  /\ Forall valid_timestamp sample_filtered
  /\ Forall (fun s =>
               Report_Count s
               = List.length
                   (filter (fun r => str_eqb (Main_Category r) (s_Main_Category s)
                                     && notna (Report_Time r)) sample_filtered))
            (category_report sample_filtered)
  /\ exists wb df,
       excel_file sample_filtered = Some wb
       /\ read_excel wb detail_sheet_name = Some df
       /\ List.length (rows df) = List.length sample_filtered
       /\ Forall (fun cells => exists t, nth_error cells 1 = Some (VTime t))
                 (rows df).
Proof.
  apply (timestamps_valid_throughout (option Timestamp) (fun c => c)
           sample_sheet sample_range sample_categories sample_filtered).
  reflexivity.
Defined.

Example sample_sheet_rows :
  List.length sample_sheet = 5 /\ List.length sample_df = 4.
Proof. vm_compute. split; reflexivity. Qed.

(* ================================================================== *)
(** * More on reporter extraction *)

Lemma dropwhile_idem (f : char -> bool) (s : str) :
  dropwhile f (dropwhile f s) = dropwhile f s.
Proof.
  induction s as [|c s IH]; simpl; [reflexivity|].
  destruct (f c) eqn:E; [exact IH|]. simpl. rewrite E. reflexivity.
Qed.

Lemma dropwhile_stop (f : char -> bool) (l : str) (c : char) (m : str) :
  f c = false -> dropwhile f (l ++ c :: m) = dropwhile f l ++ c :: m.
Proof.
  intros Hc. induction l as [|x l IH]; simpl.
  - rewrite Hc. reflexivity.
  - destruct (f x); [exact IH | reflexivity].
Qed.

Lemma dropwhile_head (f : char -> bool) (s : str) :
  dropwhile f s = [] \/ exists c m, dropwhile f s = c :: m /\ f c = false.
Proof.
  induction s as [|x s IH]; simpl; [left; reflexivity|].
  destruct (f x) eqn:E; [exact IH|]. right; exists x, s; auto.
Qed.

Lemma dropwhile_forallb (f g : char -> bool) (s : str) :
  forallb g s = true -> forallb g (dropwhile f s) = true.
Proof.
  induction s as [|x s IH]; simpl; [reflexivity|].
  intros H; apply andb_true_iff in H as [Hx Hs].
  destruct (f x); [apply IH, Hs | simpl; rewrite Hx, Hs; reflexivity].
Qed.

Lemma forallb_rev (g : char -> bool) (s : str) :
  forallb g (rev s) = forallb g s.
Proof.
  induction s as [|x s IH]; simpl; [reflexivity|].
  rewrite forallb_app, IH. simpl. rewrite andb_true_r. apply andb_comm.
Qed.

Lemma strip_forallb (g : char -> bool) (s : str) :
  forallb g s = true -> forallb g (strip s) = true.
Proof.
  intros H. unfold strip, rstrip, lstrip.
  rewrite forallb_rev. apply dropwhile_forallb.
  rewrite forallb_rev. apply dropwhile_forallb, H.
Qed.

Lemma strip_trimmed (s : str) : trimmed (strip s).
Proof.
  unfold trimmed, strip at 1.
  assert (L : lstrip (strip s) = strip s).
  { unfold strip, lstrip.
    destruct (dropwhile_head isspace s) as [E|[c [m [E Hc]]]]; rewrite E.
    - reflexivity.
    - unfold rstrip. simpl rev. rewrite dropwhile_stop by exact Hc.
      rewrite rev_app_distr. simpl. rewrite Hc. reflexivity. }
  rewrite L. unfold strip, rstrip. rewrite rev_involutive, dropwhile_idem.
  reflexivity.
Qed.

Lemma span_spec (f : char -> bool) (s : str) :
  s = fst (span f s) ++ snd (span f s)
  /\ forallb f (fst (span f s)) = true.
Proof.
  induction s as [|c s [IH1 IH2]]; simpl; [split; reflexivity|].
  destruct (f c) eqn:E; [|split; reflexivity].
  destruct (span f s) as [a b]; simpl in *.
  split; [f_equal; exact IH1 | rewrite E, IH2; reflexivity].
Qed.

Lemma span_stop (f : char -> bool) (a : str) (c : char) (b : str) :
  forallb f a = true -> f c = false -> span f (a ++ c :: b) = (a, c :: b).
Proof.
  intros Ha Hc. induction a as [|x a IH]; simpl.
  - rewrite Hc. reflexivity.
  - simpl in Ha. apply andb_true_iff in Ha as [Hx Ha].
    rewrite Hx, (IH Ha). reflexivity.
Qed.

(** What a match at the start of a text says of the text. *)
Lemma match_at_Some (s g : str) :
  match_at s = Some g ->
  g <> [] /\ one_line g
  /\ (s = reported_by ++ g \/ s = reported_by ++ g ++ [LF]).
Proof.
  unfold match_at. destruct (strip_prefix reported_by s) as [rest|] eqn:E; [|discriminate].
  apply strip_prefix_Some in E. subst s.
  unfold group_to_end. destruct (span_spec dot rest) as [Hs Hd].
  destruct (span dot rest) as [a b]; simpl in *.
  destruct a as [|x a]; [discriminate|].
  destruct b as [|c [|c' b]].
  - intros [= <-]. rewrite app_nil_r in Hs. subst rest.
    split; [discriminate|]. split; [exact Hd | left; reflexivity].
  - destruct (N.eqb_spec c LF) as [->|]; [|discriminate].
    intros [= <-]. subst rest.
    split; [discriminate|]. split; [exact Hd | right; reflexivity].
  - discriminate.
Qed.

Lemma re_search_Some (s g : str) :
  re_search s = Some g -> g <> [] /\ one_line g.
Proof.
  induction s as [|c s IH]; rewrite re_search_eq;
    destruct (match_at _) as [g'|] eqn:E; try discriminate.
  - intros H; injection H as ->. apply match_at_Some in E. tauto.
  - exact IH.
Qed.

(** X1.  Whatever the subject, the extracted reporter is a text on one
    line with no whitespace at either end: [strip] leaves it unchanged and
    it holds no line feed. *)
Theorem extract_reporter_trimmed_line (subject : option str) :
  trimmed (extract_reporter subject) /\ one_line (extract_reporter subject).
Proof.
  unfold extract_reporter. destruct subject as [s|]; [|split; reflexivity].
  destruct (re_search s) as [g|] eqn:E; [|split; reflexivity].
  split; [apply strip_trimmed|].
  apply strip_forallb. apply re_search_Some in E. tauto.
Qed.

Lemma one_line_final_LF (a x l2 : str) :
  one_line a -> a ++ [LF] = x ++ LF :: l2 -> l2 = [].
Proof.
  unfold one_line. revert x. induction a as [|c a IH]; intros x Ha E.
  - destruct x as [|y x]; simpl in E.
    + inversion E; reflexivity.
    + inversion E as [[E1 E2]]. destruct x; discriminate.
  - simpl in Ha. apply andb_true_iff in Ha as [Hc Ha].
    destruct x as [|y x]; simpl in E.
    + inversion E; subst. discriminate.
    + inversion E. eapply IH; eassumption.
Qed.

(** No match runs over a line feed that is not the last character. *)
Lemma match_at_earlier_line (x l2 : str) :
  l2 <> [] -> match_at (x ++ LF :: l2) = None.
Proof.
  intros Hl2. destruct (match_at (x ++ LF :: l2)) as [g|] eqn:E; [|reflexivity].
  exfalso. apply match_at_Some in E as [_ [Hg [E|E]]].
  - assert (H : one_line (x ++ LF :: l2)).
    { rewrite E. unfold one_line. rewrite forallb_app. rewrite Hg. reflexivity. }
    unfold one_line in H. rewrite forallb_app in H. simpl in H.
    rewrite andb_false_r in H. discriminate.
  - apply Hl2. apply (one_line_final_LF (reported_by ++ g) x l2).
    + unfold one_line. rewrite forallb_app. rewrite Hg. reflexivity.
    + rewrite <- app_assoc. symmetry. exact E.
Qed.

Lemma re_search_last_line (l1 l2 : str) :
  l2 <> [] -> re_search (l1 ++ LF :: l2) = re_search l2.
Proof.
  intros Hl2. induction l1 as [|c l1 IH].
  - rewrite re_search_eq. rewrite (match_at_earlier_line [] l2 Hl2). reflexivity.
  - rewrite re_search_eq, (match_at_earlier_line (c :: l1) l2 Hl2). exact IH.
Qed.

(** X2.  Of a subject of several lines only the text after a line feed
    counts, as long as something follows that line feed: a reporter named
    on an earlier line is not found. *)
Theorem extract_reporter_last_line (l1 l2 : str) :
  l2 <> [] ->
  extract_reporter (Some (l1 ++ LF :: l2)) = extract_reporter (Some l2).
Proof.
  intros H. unfold extract_reporter. rewrite (re_search_last_line l1 l2 H).
  reflexivity.
Qed.

(** X2, witness: the reporter named on the first line is lost. *)
Lemma extract_reporter_last_line_witness :
  extract_reporter (Some (lit "Leak reported by Ann" ++ LF :: lit "see photo"))
  = extract_reporter (Some (lit "see photo"))
  /\ extract_reporter (Some (lit "see photo")) = Unknown.
Proof.
  split; [|vm_compute; reflexivity].
  apply (extract_reporter_last_line (lit "Leak reported by Ann") (lit "see photo")).
  discriminate.
Defined.

Lemma strip_prefix_final_LF (p s : str) :
  one_line p -> strip_prefix p s = None -> strip_prefix p (s ++ [LF]) = None.
Proof.
  unfold one_line. revert s. induction p as [|x p IH]; intros s Hp; [discriminate|].
  simpl in Hp. apply andb_true_iff in Hp as [Hx Hp].
  destruct s as [|y s]; simpl.
  - intros _. unfold dot in Hx. destruct (N.eqb x LF); [discriminate | reflexivity].
  - destruct (N.eqb x y); [apply IH, Hp | reflexivity].
Qed.

Lemma match_at_final_LF (s : str) :
  one_line s -> match_at (s ++ [LF]) = match_at s.
Proof.
  intros Hs. unfold match_at.
  destruct (strip_prefix reported_by s) as [r|] eqn:E.
  - apply strip_prefix_Some in E. subst s.
    assert (E' : strip_prefix reported_by ((reported_by ++ r) ++ [LF]) = Some (r ++ [LF])).
    { apply strip_prefix_Some. rewrite app_assoc. reflexivity. }
    rewrite E'. unfold one_line in Hs. rewrite forallb_app in Hs.
    apply andb_true_iff in Hs as [_ Hr].
    unfold group_to_end.
    rewrite (span_stop dot r LF [] Hr eq_refl), (span_all _ _ Hr).
    destruct r; reflexivity.
  - rewrite strip_prefix_final_LF; [reflexivity | reflexivity | exact E].
Qed.

Lemma re_search_final_LF (s : str) :
  one_line s -> re_search (s ++ [LF]) = re_search s.
Proof.
  induction s as [|c s IH]; intros Hs; [reflexivity|].
  rewrite (re_search_eq (c :: s)), re_search_eq, (match_at_final_LF _ Hs).
  destruct (match_at (c :: s)); [reflexivity|].
  apply IH. unfold one_line in *. simpl in Hs.
  apply andb_true_iff in Hs. tauto.
Qed.

(** X3.  One line feed at the end of a one-line subject changes nothing:
    the reporter is that of the subject without it. *)
Theorem extract_reporter_final_line_feed (s : str) :
  one_line s ->
  extract_reporter (Some (s ++ [LF])) = extract_reporter (Some s).
Proof.
  intros H. unfold extract_reporter. rewrite (re_search_final_LF s H).
  reflexivity.
Qed.

(** X3, witness. *)
Lemma extract_reporter_final_line_feed_witness :
  extract_reporter (Some (lit "Issue X reported by Jane Doe" ++ [LF]))
  = extract_reporter (Some (lit "Issue X reported by Jane Doe")).
Proof.
  apply (extract_reporter_final_line_feed (lit "Issue X reported by Jane Doe")).
  reflexivity.
Defined.

(* ================================================================== *)
(** * More on the loader *)

Lemma day_name_known (t : Timestamp) : In (day_name t) day_names.
Proof.
  unfold day_name. apply nth_In.
  change (List.length day_names) with 7. unfold weekday.
  apply Nat.mod_upper_bound. discriminate.
Qed.

(** X4.  Every row the loader returns has its three calendar columns
    filled from its own timestamp (the date, the hour, and a day name that
    is one of the seven English ones), and its reporter is the one
    extracted from its own subject; the same holds of every row of a
    filtered set of the table. *)
Theorem load_data_derived_columns (Cell : Type)
    (to_datetime : Cell -> option Timestamp) (sheet : list (RawRow Cell)) :
  let derived (r : Row) :=
    exists t,
      Report_Time r = Some t
      /\ Date r = Some (ts_date t)
      /\ Hour r = Some (ts_hour t)
      /\ Day r = Some (day_name t)
      /\ In (day_name t) day_names
      /\ Reporter r = extract_reporter (Ticket_Subject r) in
  Forall derived (load_data to_datetime sheet)
  /\ (forall date_range categories,
        match filtered_df (load_data to_datetime sheet) date_range categories with
        | Some fdf => Forall derived fdf
        | None => True
        end).
Proof.
  intros derived.
  assert (H : Forall derived (load_data to_datetime sheet)).
  { rewrite load_data_eq. apply Forall_map, Forall_forall.
    intros raw Hraw. apply filter_In in Hraw as [_ Hp]. unfold parsed in Hp.
    unfold derived. cbn [load_row Report_Time Date Hour Day Reporter Ticket_Subject].
    destruct (to_datetime (Ticket_Created_At_eet raw)) as [t|]; [|discriminate].
    exists t. cbn [option_map]. repeat split. apply day_name_known. }
  split; [exact H|].
  intros date_range categories.
  destruct (filtered_df _ date_range categories) as [fdf|] eqn:F; [|exact I].
  eapply filtered_df_Forall; [exact F | exact H].
Qed.

(* ================================================================== *)
(** * More on the filter *)

Lemma date_before_eq_refl (a : date) : date_before_eq a a.
Proof. unfold date_before_eq. lia. Qed.

Lemma date_before_eq_trans (a b c : date) :
  date_before_eq a b -> date_before_eq b c -> date_before_eq a c.
Proof. unfold date_before_eq. lia. Qed.

Lemma date_before_eq_total (a b : date) :
  date_before_eq a b \/ date_before_eq b a.
Proof. unfold date_before_eq. lia. Qed.

Lemma date_leb_total (a b : date) : date_leb a b = false -> date_before_eq b a.
Proof.
  intros H. destruct (date_before_eq_total a b) as [H'|H']; [|exact H'].
  apply date_leb_spec in H'. congruence.
Qed.

Lemma date_min_spec (a b : date) :
  (date_min a b = a \/ date_min a b = b)
  /\ date_before_eq (date_min a b) a /\ date_before_eq (date_min a b) b.
Proof.
  unfold date_min. destruct (date_leb a b) eqn:E.
  - apply date_leb_spec in E. auto using date_before_eq_refl.
  - apply date_leb_total in E. auto using date_before_eq_refl.
Qed.

Lemma date_max_spec (a b : date) :
  (date_max a b = a \/ date_max a b = b)
  /\ date_before_eq a (date_max a b) /\ date_before_eq b (date_max a b).
Proof.
  unfold date_max. destruct (date_leb a b) eqn:E.
  - apply date_leb_spec in E. auto using date_before_eq_refl.
  - apply date_leb_total in E. auto using date_before_eq_refl.
Qed.

Lemma fold_date_min (l : list date) (x : date) :
  In (fold_left date_min l x) (x :: l)
  /\ forall d, In d (x :: l) -> date_before_eq (fold_left date_min l x) d.
Proof.
  revert x. induction l as [|y l IH]; intros x; simpl.
  - split; [left; reflexivity|]. intros d [<-|[]]. apply date_before_eq_refl.
  - destruct (IH (date_min x y)) as [Hin Hle].
    destruct (date_min_spec x y) as [Hm [Hx Hy]].
    split.
    + destruct Hin as [E|Hin]; [|right; right; exact Hin].
      rewrite <- E. destruct Hm as [->| ->]; [left | right; left]; reflexivity.
    + intros d [<-|[<-|Hd]].
      * eapply date_before_eq_trans; [apply Hle; left; reflexivity | exact Hx].
      * eapply date_before_eq_trans; [apply Hle; left; reflexivity | exact Hy].
      * apply Hle. right; exact Hd.
Qed.

Lemma fold_date_max (l : list date) (x : date) :
  In (fold_left date_max l x) (x :: l)
  /\ forall d, In d (x :: l) -> date_before_eq d (fold_left date_max l x).
Proof.
  revert x. induction l as [|y l IH]; intros x; simpl.
  - split; [left; reflexivity|]. intros d [<-|[]]. apply date_before_eq_refl.
  - destruct (IH (date_max x y)) as [Hin Hle].
    destruct (date_max_spec x y) as [Hm [Hx Hy]].
    split.
    + destruct Hin as [E|Hin]; [|right; right; exact Hin].
      rewrite <- E. destruct Hm as [->| ->]; [left | right; left]; reflexivity.
    + intros d [<-|[<-|Hd]].
      * eapply date_before_eq_trans; [exact Hx | apply Hle; left; reflexivity].
      * eapply date_before_eq_trans; [exact Hy | apply Hle; left; reflexivity].
      * apply Hle. right; exact Hd.
Qed.

Lemma present_dates_In (d : date) (df : list Row) :
  In d (present_dates df) <-> exists r, In r df /\ Date r = Some d.
Proof.
  unfold present_dates. rewrite in_flat_map. split.
  - intros [r [Hr Hd]]. exists r. split; [exact Hr|].
    destruct (Date r) as [x|]; [|destruct Hd].
    destruct Hd as [->|[]]. reflexivity.
  - intros [r [Hr E]]. exists r. split; [exact Hr|]. rewrite E. left; reflexivity.
Qed.

Lemma filter_all (f : Row -> bool) (df : list Row) :
  (forall r, In r df -> f r = true) -> filter f df = df.
Proof.
  induction df as [|r df IH]; intros H; simpl; [reflexivity|].
  rewrite (H r (or_introl eq_refl)). f_equal. apply IH.
  intros r' Hr'. apply H. right; exact Hr'.
Qed.

Lemma filter_none (f : Row -> bool) (df : list Row) :
  (forall r, In r df -> f r = false) -> filter f df = [].
Proof.
  induction df as [|r df IH]; intros H; simpl; [reflexivity|].
  rewrite (H r (or_introl eq_refl)). apply IH.
  intros r' Hr'. apply H. right; exact Hr'.
Qed.

(** X5.  With the values the two sidebar inputs start with, the first and
    the last date of the loaded table and all of its categories, the filter
    keeps the whole table, provided the table has a row. *)
Theorem default_filters_keep_all (Cell : Type)
    (to_datetime : Cell -> option Timestamp) (sheet : list (RawRow Cell)) :
  load_data to_datetime sheet <> [] ->
  exists date_range,
    default_date_range (load_data to_datetime sheet) = Some date_range
    /\ filtered_df (load_data to_datetime sheet) date_range
                   (default_category_filter (load_data to_datetime sheet))
       = Some (load_data to_datetime sheet).
Proof.
  set (df := load_data to_datetime sheet). intros Hne.
  assert (V : forall r, In r df -> exists d, Date r = Some d /\ In d (present_dates df)).
  { intros r Hr. pose proof (load_data_valid to_datetime sheet) as HV.
    rewrite Forall_forall in HV. destruct (HV r Hr) as [t Ht].
    unfold df in Hr. rewrite load_data_eq in Hr. apply in_map_iff in Hr as [raw [<- Hraw]].
    cbn [load_row Report_Time] in Ht. exists (ts_date t).
    assert (E : Date (load_row to_datetime raw) = Some (ts_date t)).
    { cbn [load_row Date]. rewrite Ht. reflexivity. }
    split; [exact E|]. apply present_dates_In.
    exists (load_row to_datetime raw). split; [|exact E].
    unfold df. rewrite load_data_eq. apply in_map. exact Hraw. }
  unfold default_date_range.
  destruct (present_dates df) as [|x l] eqn:P.
  - exfalso. destruct df as [|r df']; [apply Hne; reflexivity|].
    destruct (V r (or_introl eq_refl)) as [d [_ []]].
  - cbn [Series_min Series_max]. eexists. split; [reflexivity|].
    unfold filtered_df. cbn [nth_error]. f_equal. apply filter_all.
    intros r Hr. apply keep_spec. split.
    + destruct (V r Hr) as [d [E Hd]]. exists d. split; [exact E|].
      split; [apply fold_date_min | apply fold_date_max]; exact Hd.
    + unfold default_category_filter. apply unique_In, in_map, Hr.
Qed.

(** X5, witness: the sample table. *)
Lemma default_filters_keep_all_witness :
  exists date_range,
    default_date_range sample_df = Some date_range
    /\ filtered_df sample_df date_range (default_category_filter sample_df)
       = Some sample_df.
Proof.
  apply (default_filters_keep_all (option Timestamp) (fun c => c) sample_sheet).
  discriminate.
Defined.

Example sample_defaults :
  default_date_range sample_df = Some [mkdate 2024 3 1; mkdate 2024 3 5]
  /\ default_category_filter sample_df
     = [lit "Late delivery"; Undefined; lit "Damaged"].
Proof. vm_compute. split; reflexivity. Qed.

Lemma filter_filter (f g : Row -> bool) (df : list Row) :
  (forall r, f r = true -> g r = true) ->
  filter f (filter g df) = filter f df.
Proof.
  intros H. induction df as [|r df IH]; simpl; [reflexivity|].
  destruct (g r) eqn:G; simpl.
  - rewrite IH. reflexivity.
  - destruct (f r) eqn:F; [|exact IH]. rewrite (H r F) in G. discriminate.
Qed.

(** X6.  Narrowing composes: when a range and a selection of categories
    lie within wider ones, applying them to the set the wider ones give
    returns what they give on the whole table.  In particular applying the
    same filters twice changes nothing. *)
Theorem filtered_df_narrowing (df : list Row) (lo hi lo' hi' : date)
    (categories categories' : list str) (wide : list Row) :
  date_before_eq lo' lo -> date_before_eq hi hi' ->
  incl categories categories' ->
  filtered_df df [lo'; hi'] categories' = Some wide ->
  filtered_df wide [lo; hi] categories = filtered_df df [lo; hi] categories.
Proof.
  intros Hlo Hhi Hc [= <-]. unfold filtered_df. cbn [nth_error]. f_equal.
  apply filter_filter. intros r Hr.
  apply keep_spec in Hr as [[d [E [H1 H2]]] H3]. apply keep_spec. split.
  - exists d. split; [exact E|]. split; eapply date_before_eq_trans; eassumption.
  - apply Hc, H3.
Qed.

(** X6, witness: 3 to 7 March and two categories, within 2 to 31 March and
    all categories of the sample table. *)
Lemma filtered_df_narrowing_witness :
  filtered_df (filter (keep (mkdate 2024 3 2) (mkdate 2024 3 31)
                            (default_category_filter sample_df)) sample_df)
              [mkdate 2024 3 3; mkdate 2024 3 7] sample_categories
  = filtered_df sample_df [mkdate 2024 3 3; mkdate 2024 3 7] sample_categories.
Proof.
  apply (filtered_df_narrowing sample_df (mkdate 2024 3 3) (mkdate 2024 3 7)
           (mkdate 2024 3 2) (mkdate 2024 3 31)
           sample_categories (default_category_filter sample_df)).
  - apply date_leb_spec. reflexivity.
  - apply date_leb_spec. reflexivity.
  - intros c Hc. vm_compute in Hc. vm_compute. tauto.
  - reflexivity.
Defined.

(** X7.  With no category selected, or with a range that ends before it
    starts, the filtered set is empty, whatever the table. *)
Theorem filtered_df_nothing_selected (df : list Row) (start end_ : date)
    (categories : list str) :
  categories = [] \/ date_leb start end_ = false ->
  filtered_df df [start; end_] categories = Some [].
Proof.
  intros H. unfold filtered_df. cbn [nth_error]. f_equal. apply filter_none.
  intros r _. destruct (keep start end_ categories r) eqn:K; [|reflexivity].
  apply keep_spec in K as [[d [_ [H1 H2]]] H3].
  destruct H as [->|H]; [destruct H3|].
  pose proof (date_before_eq_trans _ _ _ H1 H2) as H12.
  apply date_leb_spec in H12. congruence.
Qed.

(** X7, witness: a range from 5 March back to 1 March. *)
Lemma filtered_df_nothing_selected_witness :
  filtered_df sample_df [mkdate 2024 3 5; mkdate 2024 3 1]
              (default_category_filter sample_df) = Some [].
Proof.
  apply (filtered_df_nothing_selected sample_df (mkdate 2024 3 5) (mkdate 2024 3 1)).
  right. reflexivity.
Defined.

(* ================================================================== *)
(** * More on the aggregator *)

(** ** The order of texts *)

Lemma str_leb_refl (a : str) : str_leb a a = true.
Proof.
  induction a as [|x a IH]; simpl; [reflexivity|].
  rewrite N.eqb_refl, IH. apply orb_true_r.
Qed.

Lemma str_leb_total (a b : str) : str_leb a b = false -> str_leb b a = true.
Proof.
  revert b. induction a as [|x a IH]; intros [|y b]; simpl; try discriminate; try reflexivity.
  rewrite orb_false_iff, andb_false_iff, orb_true_iff, andb_true_iff,
    N.ltb_ge, N.ltb_lt, !N.eqb_neq, N.eqb_eq.
  intros [H1 [H2|H2]].
  - left. lia.
  - destruct (N.eq_dec y x) as [E|E]; [right; split; [exact E | apply IH, H2] | left; lia].
Qed.

Lemma str_leb_trans (a b c : str) :
  str_leb a b = true -> str_leb b c = true -> str_leb a c = true.
Proof.
  revert b c. induction a as [|x a IH]; intros [|y b] [|z c]; simpl;
    try discriminate; try reflexivity.
  rewrite !orb_true_iff, !andb_true_iff, !N.ltb_lt, !N.eqb_eq.
  intros [H1|[H1 H1']] [H2|[H2 H2']].
  - left; lia.
  - left; lia.
  - left; lia.
  - right. split; [lia | eapply IH; eassumption].
Qed.

Lemma str_leb_antisym (a b : str) :
  str_leb a b = true -> str_leb b a = true -> a = b.
Proof.
  revert b. induction a as [|x a IH]; intros [|y b]; simpl;
    try discriminate; try reflexivity.
  rewrite !orb_true_iff, !andb_true_iff, !N.ltb_lt, !N.eqb_eq.
  intros [H1|[H1 H1']] [H2|[H2 H2']]; try lia.
  subst. f_equal. apply IH; assumption.
Qed.

Lemma insert_key_sorted (k : str) (l : list str) :
  StronglySorted (fun a b => str_leb a b = true) l ->
  StronglySorted (fun a b => str_leb a b = true) (insert_key k l).
Proof.
  induction 1 as [|y l Hl IH Hy]; simpl.
  - constructor; constructor.
  - destruct (str_leb k y) eqn:E.
    + constructor; [constructor; assumption|].
      constructor; [exact E|].
      eapply Forall_impl; [|exact Hy].
      intros z Hz. eapply str_leb_trans; eassumption.
    + constructor; [exact IH|].
      eapply Permutation_Forall; [symmetry; apply insert_key_perm|].
      constructor; [apply str_leb_total, E | exact Hy].
Qed.

Lemma sort_keys_sorted (l : list str) :
  StronglySorted (fun a b => str_leb a b = true) (sort_keys l).
Proof.
  induction l as [|x l IH]; simpl; [constructor | apply insert_key_sorted, IH].
Qed.

Lemma sorted_strict (l : list str) :
  StronglySorted (fun a b => str_leb a b = true) l -> NoDup l ->
  StronglySorted str_lt l.
Proof.
  induction 1 as [|x l Hl IH Hx]; intros ND; [constructor|].
  inversion ND as [|? ? Hnin ND']; subst.
  constructor; [apply IH, ND'|].
  rewrite Forall_forall in *. intros y Hy. split; [apply Hx, Hy|].
  intros ->. contradiction.
Qed.

Lemma category_report_keys (fdf : list Row) :
  map s_Main_Category (category_report fdf) = group_keys fdf.
Proof.
  unfold category_report, groupby_agg. rewrite !map_map.
  cbn [report_row agg s_Main_Category g_Main_Category]. apply map_id.
Qed.

(** X8.  The category report has one row for each category that occurs in
    the filtered set and no other row, and its rows are in strictly
    ascending order of the category text (the order of code points). *)
Theorem category_report_sorted_keys (fdf : list Row) :
  StronglySorted str_lt (map s_Main_Category (category_report fdf))
  /\ (forall c, In c (map s_Main_Category (category_report fdf))
                <-> In c (map Main_Category fdf)).
Proof.
  rewrite category_report_keys. split.
  - apply sorted_strict; [apply sort_keys_sorted | apply group_keys_NoDup].
  - intros c. apply group_keys_In.
Qed.

(** ** Counts *)

Lemma count_of_positive (k : str) (l : list str) :
  1 <= count_of k l <-> In k l.
Proof.
  split.
  - intros H. destruct (in_dec (list_eq_dec N.eq_dec) k l) as [Hin|Hnin]; [exact Hin|].
    rewrite (count_of_absent k l Hnin) in H. lia.
  - induction l as [|x l IH]; intros []; rewrite count_of_cons.
    + subst. rewrite str_eqb_refl. lia.
    + specialize (IH H). lia.
Qed.

Lemma length_sort_keys (l : list str) :
  List.length (sort_keys l) = List.length l.
Proof. apply Permutation_length, sort_keys_perm. Qed.

Lemma unique_length (l : list str) : List.length (unique l) <= List.length l.
Proof.
  induction l as [|x l IH]; simpl; [lia|].
  pose proof (filter_length_le (fun y => negb (str_eqb y x)) (unique l)). lia.
Qed.

(** X9.  The numbers shown agree: the report counts add up to the total
    of complaints, the report has as many rows as the number of categories
    shown, every report count is at least 1 (so the share of a reporter in
    a category never divides by zero), and there are at most as many
    categories and reporters as complaints. *)
Theorem summary_numbers_agree (fdf : list Row) :
  list_sum (map Report_Count (category_report fdf)) = total_reports fdf
  /\ List.length (category_report fdf) = metric_categories fdf
  /\ Forall (fun s => 1 <= Report_Count s) (category_report fdf)
  /\ metric_categories fdf <= total_reports fdf
  /\ metric_reporters fdf <= total_reports fdf.
Proof.
  split; [apply report_counts_total|]. split; [|split; [|split]].
  - unfold category_report, groupby_agg, metric_categories, group_keys.
    rewrite !length_map. apply length_sort_keys.
  - apply Forall_forall. intros s Hs.
    apply category_report_In in Hs as [k [Hk ->]].
    cbn [report_row agg Report_Count g_Report_Count].
    rewrite group_rows_length. apply count_of_positive, group_keys_In, Hk.
  - unfold metric_categories, total_reports.
    rewrite <- (length_map Main_Category fdf). apply unique_length.
  - unfold metric_reporters, total_reports.
    rewrite <- (length_map Reporter fdf). apply unique_length.
Qed.

Example sample_numbers :
  total_reports sample_filtered = 3
  /\ metric_categories sample_filtered = 2
  /\ metric_reporters sample_filtered = 2.
Proof. vm_compute. repeat split; reflexivity. Qed.

(** ** The reporter mapping *)

Lemma value_counts_perm (x : list str) :
  Permutation (value_counts x) (map (fun k => (k, count_of k x)) (unique x)).
Proof. apply sort_desc_perm. Qed.

Lemma value_counts_In (x : list str) (r : str) (n : nat) :
  In (r, n) (value_counts x) <-> In r x /\ n = count_of r x.
Proof.
  split.
  - intros H. apply (Permutation_in _ (value_counts_perm x)) in H.
    apply in_map_iff in H as [k [[= -> ->] Hk]].
    split; [apply unique_In, Hk | reflexivity].
  - intros [Hr ->].
    apply (Permutation_in _ (Permutation_sym (value_counts_perm x))).
    apply in_map_iff. exists r. split; [reflexivity | apply unique_In, Hr].
Qed.

Lemma value_counts_keys (x : list str) : NoDup (map fst (value_counts x)).
Proof.
  eapply Permutation_NoDup.
  - symmetry. apply Permutation_map, value_counts_perm.
  - rewrite map_map. cbn [fst]. rewrite map_id. apply unique_NoDup.
Qed.

Lemma insert_desc_sorted (x : str * nat) (l : list (str * nat)) :
  StronglySorted count_ge l -> StronglySorted count_ge (insert_desc x l).
Proof.
  induction 1 as [|y l Hl IH Hy]; simpl.
  - constructor; constructor.
  - destruct (snd y <=? snd x) eqn:E.
    + apply Nat.leb_le in E.
      constructor; [constructor; assumption|].
      constructor; [exact E|].
      eapply Forall_impl; [|exact Hy].
      unfold count_ge. intros z Hz. lia.
    + apply Nat.leb_gt in E.
      constructor; [exact IH|].
      eapply Permutation_Forall; [symmetry; apply insert_desc_perm|].
      constructor; [unfold count_ge; lia | exact Hy].
Qed.

Lemma sort_desc_sorted (l : list (str * nat)) :
  StronglySorted count_ge (sort_desc l).
Proof.
  induction l as [|x l IH]; simpl; [constructor | apply insert_desc_sorted, IH].
Qed.

(** The stable sort leaves a list that is in descending order as it is. *)
Lemma sort_desc_fixed (l : list (str * nat)) :
  StronglySorted count_ge l -> sort_desc l = l.
Proof.
  induction 1 as [|x l Hl IH Hx]; simpl; [reflexivity|].
  rewrite IH. destruct l as [|y l]; simpl; [reflexivity|].
  inversion Hx as [|? ? Hy _]; subst. unfold count_ge in Hy.
  apply Nat.leb_le in Hy. rewrite Hy. reflexivity.
Qed.

Lemma count_of_group_reporter (k r : str) (fdf : list Row) :
  count_of r (map Reporter (group_rows k fdf))
  = List.length (filter (fun row => str_eqb (Main_Category row) k
                                    && str_eqb (Reporter row) r) fdf).
Proof.
  unfold count_of, group_rows.
  induction fdf as [|row fdf IH]; simpl; [reflexivity|].
  destruct (str_eqb (Main_Category row) k); simpl; [|exact IH].
  rewrite (str_eqb_sym r). destruct (str_eqb (Reporter row) r); simpl; rewrite IH; reflexivity.
Qed.

(** X10.  In every row of the report the reporter mapping has each
    reporter once, in descending order of count, and it holds exactly the
    reporters of the filtered rows of that category, each with the number
    of those rows that name them. *)
Theorem reporters_mapping_exact (fdf : list Row) (s : Summary) :
  In s (category_report fdf) ->
  NoDup (map fst (Reporters s))
  /\ StronglySorted count_ge (Reporters s)
  /\ (forall r n,
        In (r, n) (Reporters s) <->
        1 <= n
        /\ n = List.length
                 (filter (fun row => str_eqb (Main_Category row) (s_Main_Category s)
                                     && str_eqb (Reporter row) r) fdf)).
Proof.
  intros H. apply category_report_In in H as [k [_ ->]].
  cbn [report_row agg Reporters s_Main_Category g_Reporters g_Main_Category].
  split; [apply value_counts_keys|]. split; [apply sort_desc_sorted|].
  intros r n. rewrite value_counts_In, <- count_of_group_reporter.
  rewrite <- count_of_positive. split.
  - intros [H ->]. split; [exact H | reflexivity].
  - intros [H ->]. split; [exact H | reflexivity].
Qed.

(** X10, witness: the late deliveries of the sample table. *)
Lemma reporters_mapping_exact_witness :
  NoDup (map fst (Reporters (report_row 4 (agg sample_df (lit "Late delivery")))))
  /\ StronglySorted count_ge
       (Reporters (report_row 4 (agg sample_df (lit "Late delivery"))))
  /\ (forall r n,
        In (r, n) (Reporters (report_row 4 (agg sample_df (lit "Late delivery")))) <->
        1 <= n
        /\ n = List.length
                 (filter (fun row =>
                            str_eqb (Main_Category row)
                                    (s_Main_Category
                                       (report_row 4 (agg sample_df (lit "Late delivery"))))
                            && str_eqb (Reporter row) r) sample_df)).
Proof.
  apply (reporters_mapping_exact sample_df).
  vm_compute. right; left; reflexivity.
Defined.

(** X11.  The sort in [format_reporters] finds the mapping of a report row
    already in order: the text lists the reporters in the order of the
    mapping, each as "name (count)", separated by ", ". *)
Theorem top_reporters_in_mapping_order (fdf : list Row) (s : Summary) :
  In s (category_report fdf) ->
  Top_Reporters s
  = join (lit ", ")
         (map (fun rc => fst rc ++ lit " (" ++ str_of_nat (snd rc) ++ lit ")")
              (Reporters s)).
Proof.
  intros H. apply category_report_In in H as [k [_ ->]].
  cbn [report_row agg Reporters Top_Reporters g_Reporters].
  unfold format_reporters, value_counts.
  rewrite (sort_desc_fixed _ (sort_desc_sorted _)). reflexivity.
Qed.

(** X11, witness: "Jane Doe (1), Unknown (1)". *)
Lemma top_reporters_in_mapping_order_witness :
  Top_Reporters (report_row 4 (agg sample_df (lit "Late delivery")))
  = join (lit ", ")
         (map (fun rc => fst rc ++ lit " (" ++ str_of_nat (snd rc) ++ lit ")")
              (Reporters (report_row 4 (agg sample_df (lit "Late delivery")))))
  /\ Top_Reporters (report_row 4 (agg sample_df (lit "Late delivery")))
     = lit "Jane Doe (1), Unknown (1)".
Proof.
  split; [|vm_compute; reflexivity].
  apply (top_reporters_in_mapping_order sample_df).
  vm_compute. right; left; reflexivity.
Defined.

(** X12.  The pie chart and the report show the same counts: the value
    counts of the category column are, up to their order, the pairs of
    category and report count of the report, and they come in descending
    order of count. *)
Theorem category_counts_agree (fdf : list Row) :
  Permutation (category_counts fdf)
              (map (fun s => (s_Main_Category s, Report_Count s))
                   (category_report fdf))
  /\ StronglySorted count_ge (category_counts fdf).
Proof.
  split; [|apply sort_desc_sorted].
  unfold category_counts. rewrite value_counts_perm.
  unfold category_report, groupby_agg. rewrite !map_map.
  cbn [report_row agg s_Main_Category Report_Count g_Main_Category g_Report_Count].
  rewrite (map_ext (fun k => (k, List.length (group_rows k fdf)))
                   (fun k => (k, count_of k (map Main_Category fdf))))
    by (intros k; rewrite group_rows_length; reflexivity).
  apply Permutation_map. symmetry. apply sort_keys_perm.
Qed.

(** ** The views *)

Lemma insert_by_count_perm (s : Summary) (l : list Summary) :
  Permutation (insert_by_count s l) (s :: l).
Proof.
  induction l as [|y l IH]; simpl; [reflexivity|].
  destruct (Report_Count y <=? Report_Count s); [reflexivity|].
  rewrite IH. apply perm_swap.
Qed.

Lemma sort_by_count_perm (l : list Summary) : Permutation (sort_by_count l) l.
Proof.
  induction l as [|x l IH]; simpl; [reflexivity|].
  rewrite insert_by_count_perm, IH. reflexivity.
Qed.

Lemma insert_by_count_sorted (s : Summary) (l : list Summary) :
  StronglySorted (fun a b => Report_Count b <= Report_Count a) l ->
  StronglySorted (fun a b => Report_Count b <= Report_Count a)
                 (insert_by_count s l).
Proof.
  induction 1 as [|y l Hl IH Hy]; simpl.
  - constructor; constructor.
  - destruct (Report_Count y <=? Report_Count s) eqn:E.
    + apply Nat.leb_le in E.
      constructor; [constructor; assumption|].
      constructor; [exact E|].
      eapply Forall_impl; [|exact Hy]. cbv beta. intros z Hz. lia.
    + apply Nat.leb_gt in E.
      constructor; [exact IH|].
      eapply Permutation_Forall; [symmetry; apply insert_by_count_perm|].
      constructor; [lia | exact Hy].
Qed.

(** X13.  The table of categories and the reporter analysis go through
    the rows of the report by descending number of complaints: each row of
    the report once, and no row before one with more complaints. *)
Theorem sort_by_count_descending (fdf : list Row) :
  Permutation (sort_by_count (category_report fdf)) (category_report fdf)
  /\ StronglySorted (fun a b => Report_Count b <= Report_Count a)
                    (sort_by_count (category_report fdf)).
Proof.
  split; [apply sort_by_count_perm|].
  induction (category_report fdf) as [|x l IH]; simpl;
    [constructor | apply insert_by_count_sorted, IH].
Qed.

Lemma reporter_count_bounds (fdf : list Row) (s : Summary) (r : str) (n : nat) :
  In s (category_report fdf) -> In (r, n) (Reporters s) ->
  1 <= n <= Report_Count s.
Proof.
  intros H. apply category_report_In in H as [k [_ ->]].
  cbn [report_row agg Reporters Report_Count g_Reporters g_Report_Count].
  intros Hrn. apply value_counts_In in Hrn as [Hr ->]. split.
  - apply count_of_positive, Hr.
  - rewrite <- (length_map Reporter (group_rows k fdf)).
    unfold count_of. apply filter_length_le.
Qed.

(** X14.  The reporter table of a category of the report has one row for
    each entry of its reporter mapping, by descending count, and every
    count in it lies between 1 and the report count of the category, by
    which the share is computed. *)
Theorem reporter_df_rows (fdf : list Row) (s : Summary) :
  In s (category_report fdf) ->
  Permutation (map fst (reporter_df s)) (Reporters s)
  /\ StronglySorted count_ge (map fst (reporter_df s))
  /\ Forall (fun row =>
               1 <= snd (fst row) <= Report_Count s
               /\ snd row = percentage (snd (fst row)) (Report_Count s))
            (reporter_df s).
Proof.
  intros H. unfold reporter_df.
  split; [|split].
  - rewrite map_map. cbn [fst]. rewrite map_ext with (g := fun rc => rc)
      by (intros [r n]; reflexivity).
    rewrite map_id. apply sort_desc_perm.
  - rewrite map_map. cbn [fst]. rewrite map_ext with (g := fun rc => rc)
      by (intros [r n]; reflexivity).
    rewrite map_id. apply sort_desc_sorted.
  - apply Forall_map, Forall_forall. intros [r n] Hrn. cbn [fst snd].
    split; [|reflexivity].
    apply (Permutation_in _ (sort_desc_perm _)) in Hrn.
    exact (reporter_count_bounds fdf s r n H Hrn).
Qed.

(** X14, witness: the late deliveries of the sample table, one report each
    by Jane Doe and by an unknown reporter, 50.0 percent each. *)
Lemma reporter_df_rows_witness :
  (Permutation (map fst (reporter_df (report_row 4 (agg sample_df (lit "Late delivery")))))
               (Reporters (report_row 4 (agg sample_df (lit "Late delivery"))))
   /\ StronglySorted count_ge
        (map fst (reporter_df (report_row 4 (agg sample_df (lit "Late delivery")))))
   /\ Forall (fun row =>
                1 <= snd (fst row)
                     <= Report_Count (report_row 4 (agg sample_df (lit "Late delivery")))
                /\ snd row
                   = percentage (snd (fst row))
                       (Report_Count (report_row 4 (agg sample_df (lit "Late delivery")))))
             (reporter_df (report_row 4 (agg sample_df (lit "Late delivery")))))
  /\ reporter_df (report_row 4 (agg sample_df (lit "Late delivery")))
     = [(lit "Jane Doe", 1, 50%float); (Unknown, 1, 50%float)].
Proof.
  split; [|vm_compute; reflexivity].
  apply (reporter_df_rows sample_df).
  vm_compute. right; left; reflexivity.
Defined.

(* ================================================================== *)
(** * More on the exporter *)




Example to_excel_too_few_names :
  to_excel [detailed_df sample_filtered; detailed_df sample_filtered]
           [detail_sheet_name] = None.
Proof. reflexivity. Qed.

Lemma summary_rows_not_blank (report : list Summary) :
  Forall (fun row => blank_row row = false)
         (map (map written) (rows (summary_df report))).
Proof.
  unfold summary_df; cbn [rows]. rewrite map_map. apply Forall_map, Forall_forall.
  intros s _. cbn [map blank_row forallb written is_blank].
  rewrite andb_false_r. reflexivity.
Qed.

(** X16.  Reading the sheet "Category Summary" of the exported file back
    gives the four columns of the summary and one row per category of the
    filtered set, with the report counts in the order of the report,
    whatever the filtered set (also for the empty one). *)
Theorem export_summary_round_trip (fdf : list Row) :
  exists wb df,
    excel_file fdf = Some wb
    /\ read_excel wb summary_sheet_name = Some df
    /\ columns df = columns (summary_df (category_report fdf))
    /\ List.length (rows df) = metric_categories fdf
    /\ map (fun cells => nth_error cells 1) (rows df)
       = map (fun s => Some (VInt (Report_Count s))) (category_report fdf).
Proof.
  eexists. eexists. split; [reflexivity|].
  unfold read_excel, df_to_excel. cbn [app List.find fst map].
  change (str_eqb (lit "Category Summary") summary_sheet_name) with true.
  cbv iota.
  change (map (map written)
              (map VStr (columns (summary_df (category_report fdf)))
               :: rows (summary_df (category_report fdf))))
    with (map written (map VStr (columns (summary_df (category_report fdf))))
          :: map (map written) (rows (summary_df (category_report fdf)))).
  rewrite trim_sheet_full
    by (constructor; [reflexivity | apply summary_rows_not_blank]).
  split; [reflexivity|]. split; [reflexivity|].
  cbn [rows summary_df]. split.
  - rewrite !length_map.
    unfold category_report, groupby_agg, metric_categories, group_keys.
    rewrite !length_map. apply length_sort_keys.
  - rewrite !map_map. reflexivity.
Qed.




(* ================================================================== *)
(** * The report and the order of the rows *)

Lemma str_lt_irrefl_pair (a b : str) : str_lt a b -> str_lt b a -> False.
Proof.
  intros [H1 N1] [H2 _]. apply N1, str_leb_antisym; assumption.
Qed.

(** Two strictly ascending lists with the same elements are equal. *)
Lemma sorted_same_elements (l l' : list str) :
  StronglySorted str_lt l -> StronglySorted str_lt l' ->
  (forall x, In x l <-> In x l') -> l = l'.
Proof.
  intros Hl. revert l'. induction Hl as [|x t Ht IH Hx]; intros l' Hl' Hin.
  - destruct l' as [|y t']; [reflexivity|].
    exfalso. apply (Hin y). left; reflexivity.
  - destruct Hl' as [|y t' Ht' Hy].
    + exfalso. apply (Hin x). left; reflexivity.
    + rewrite Forall_forall in Hx, Hy.
      assert (E : x = y).
      { destruct (proj1 (Hin x) (or_introl eq_refl)) as [E|Hx']; [symmetry; exact E|].
        destruct (proj2 (Hin y) (or_introl eq_refl)) as [E|Hy']; [exact E|].
        exfalso. apply (str_lt_irrefl_pair x y (Hx y Hy') (Hy x Hx')). }
      subst y. f_equal. apply IH; [exact Ht'|].
      intros z. split; intros Hz.
      * destruct (proj1 (Hin z) (or_intror Hz)) as [E|H]; [|exact H].
        subst z. destruct (Hx x Hz) as [_ N]. contradiction.
      * destruct (proj2 (Hin z) (or_intror Hz)) as [E|H]; [|exact H].
        subst z. destruct (Hy x Hz) as [_ N]. contradiction.
Qed.

Lemma group_keys_sorted (fdf : list Row) : StronglySorted str_lt (group_keys fdf).
Proof.
  apply sorted_strict; [apply sort_keys_sorted | apply group_keys_NoDup].
Qed.

Lemma filter_perm (f : Row -> bool) (l l' : list Row) :
  Permutation l l' -> Permutation (filter f l) (filter f l').
Proof.
  induction 1 as [|x l l' _ IH|x y l|l l' l'' _ IH1 _ IH2]; simpl.
  - constructor.
  - destruct (f x); [constructor|]; exact IH.
  - destruct (f x), (f y); try reflexivity. apply perm_swap.
  - etransitivity; eassumption.
Qed.

(** X18.  The categories, counts and percentages of the report do not
    depend on the order of the rows of the filtered set: two filtered sets
    with the same rows in another order have reports with the same
    figures, row for row. *)
Theorem category_report_order_independent (fdf fdf' : list Row) :
  Permutation fdf fdf' ->
  map figures (category_report fdf) = map figures (category_report fdf').
Proof.
  intros P.
  assert (K : group_keys fdf = group_keys fdf').
  { apply sorted_same_elements; try apply group_keys_sorted.
    intros x. rewrite !group_keys_In.
    split; apply Permutation_in, Permutation_map;
      [exact P | symmetry; exact P]. }
  unfold category_report, groupby_agg, total_reports. rewrite !map_map, K.
  rewrite (Permutation_length P).
  apply map_ext. intros k. unfold figures.
  cbn [report_row agg s_Main_Category Report_Count Percentage
       g_Main_Category g_Report_Count].
  unfold group_rows.
  rewrite (Permutation_length (filter_perm _ fdf fdf' P)). reflexivity.
Qed.

(** X18, witness: the filtered sample rows read backwards. *)
Lemma category_report_order_independent_witness :
  map figures (category_report sample_filtered)
  = map figures (category_report (rev sample_filtered)).
Proof.
  apply (category_report_order_independent sample_filtered (rev sample_filtered)).
  apply Permutation_rev.
Defined.

(* ================================================================== *)
(** * The numerals of the counts *)





